(** * fastapi_user_auth: the authorization decision engine

    A shallow embedding of [fastapi_user_auth/auth/auth.py] and of the
    login and registration handlers of [fastapi_user_auth/admin.py],
    with the properties the specification states about them.

    Python values are modelled by the types the code gives them; [await]
    is sequential composition; an exception is an explicit [Raise]. *)

From Stdlib Require Import ZArith String Ascii.
From stdpp Require Import base option list gmap strings.

Open Scope Z_scope.
Open Scope string_scope.

(** ** Python strings *)

Module PyStr.

(** [bool(s)] for a [str]: the empty string is falsy. *)
Definition truthy (s : string) : bool :=
  match s with EmptyString => false | String _ _ => true end.

(** [bool(x)] for an [Optional[str]]. *)
Definition truthy_opt (o : option string) : bool :=
  match o with None => false | Some s => truthy s end.

(** [a or b] on optional strings: [a] when it is truthy, else [b]. *)
Definition or_else (a b : option string) : option string :=
  if truthy_opt a then a else b.

(** [c.lower()] on one character. Only the letters A-Z change; that
    agrees with Python's [str.lower] wherever the result is compared
    with an all-ASCII lower-case word. *)
Definition lower_ascii (c : ascii) : ascii :=
  let n := nat_of_ascii c in
  if (Nat.leb 65 n && Nat.leb n 90)%bool then ascii_of_nat (n + 32) else c.

Fixpoint lower (s : string) : string :=
  match s with
  | EmptyString => EmptyString
  | String c r => String (lower_ascii c) (lower r)
  end.

(** [s.partition(" ")]: the text before the first space and the text
    after it; [(s, "")] when [s] has no space. The separator itself,
    the middle component of Python's triple, is dropped. *)
Fixpoint partition_space (s : string) : string * string :=
  match s with
  | EmptyString => (EmptyString, EmptyString)
  | String c r =>
      if Ascii.eqb c " "%char then (EmptyString, r)
      else let '(a, b) := partition_space r in (String c a, b)
  end.

End PyStr.

(** ** Exceptions and the effect monad *)

(** The exceptions the modelled code can raise. *)
Inductive Exn :=
| AttributeError
| AssertionError
| NotImplementedError
| TypeError
| ValidationError
| HTTPException (status_code : Z).

(** The outcome of running Python code: a value, or a raised exception. *)
Inductive Result (A : Type) :=
| Return (a : A)
| Raise (e : Exn).
Arguments Return {A} a.
Arguments Raise {A} e.

(** State and exceptions: state changes made before a [raise] persist. *)
Definition M (St A : Type) : Type := St -> Result A * St.

Definition ret {St A} (a : A) : M St A := fun s => (Return a, s).
Definition raise {St A} (e : Exn) : M St A := fun s => (Raise e, s).
Definition bind {St A B} (m : M St A) (k : A -> M St B) : M St B :=
  fun s => match m s with
           | (Return a, s') => k a s'
           | (Raise e, s') => (Raise e, s')
           end.
Definition gets {St A} (f : St -> A) : M St A := fun s => (Return (f s), s).
Definition modify {St} (f : St -> St) : M St unit := fun s => (Return tt, f s).

Declare Scope py_scope.
Delimit Scope py_scope with py.
Notation "'let*' x := m 'in' k" := (bind m (fun x => k))
  (at level 10, x name, m at level 100, k at level 200) : py_scope.
Notation "'exec' m 'in' k" := (bind m (fun _ => k))
  (at level 10, m at level 100, k at level 200) : py_scope.
Open Scope py_scope.

(** ** Data model *)

(** [Union[str, SecretStr]]. *)
Inductive Password :=
| PlainStr (s : string)
| SecretStr (s : string).

(** [p.get_secret_value() if isinstance(p, SecretStr) else p]. *)
Definition secret_value (p : Password) : string :=
  match p with PlainStr s => s | SecretStr s => s end.

(** A row of the user table ([BaseUser]). *)
Record User := {
  id : Z;
  username : string;
  password : Password;      (* the stored hash *)
  email : string;
  is_active : bool
}.

(** [BaseTokenData]: the payload a token stands for. *)
Record TokenData := {
  td_id : Z;
  td_username : string
}.

(** [user.dict()] as the token store reads it. *)
Definition user_dict (u : User) : TokenData :=
  {| td_id := id u; td_username := username u |}.

(** [passlib]'s [CryptContext], the external hashing capability. *)
Record CryptContext := {
  verify : string -> string -> bool;
  hash : string -> string
}.

(** The database as the engine uses it: the user table, and for every
    user id the keys of the roles, groups and permissions linked to it. *)
Record Database := {
  users : list User;
  role_keys : Z -> gset string;
  group_keys : Z -> gset string;
  permission_keys : Z -> gset string
}.

(** The [Auth] object: which instance it is, and its password context.
    The database and the token store it points to are in the state. *)
Record Auth := {
  auth_id : nat;
  pwd_context : CryptContext
}.

(** A value stored in [request.scope] under ["auth"] or ["user"]. *)
Inductive SVal :=
| SNone
| SAuth (a : Auth)
| SUser (u : User).

(** [bool(v)]: [None] is falsy; an [Auth] or a user object is truthy. *)
Definition truthy_val (v : SVal) : bool :=
  match v with SNone => false | _ => true end.

Definition of_optional (o : option User) : SVal :=
  match o with None => SNone | Some u => SUser u end.

(** What a handler reads of a connection; its mutable [scope] lives in
    the state. [url_for] is the framework's route reversal. *)
Record Request := {
  headers : gmap string string;
  cookies : gmap string string;
  url_for : string -> string
}.

(** The input and output the engine performs, in order. *)
Inductive Event :=
| TokenRead (token : string)
| TokenWrite (payload : TokenData)
| UserSelect
| UserInsert
| PasswordVerify.

(** ** The token store interface ([BaseTokenStore]) *)

Class TokenStore (S : Type) := {
  read_token : nat -> string -> S -> option TokenData;
  write_token : nat -> string -> TokenData -> S -> string * S;
  destroy_token : string -> S -> Result unit * S
}.

(** ** State of one request *)

Record State (S : Type) := {
  scope : gmap string SVal;    (* [request.scope] *)
  db : Database;
  store : S;                   (* the token store's contents *)
  now : nat;                   (* the clock *)
  entropy : list string;       (* what the random source yields next *)
  trace : list Event           (* most recent first *)
}.
Arguments scope {S} _.
Arguments db {S} _.
Arguments store {S} _.
Arguments now {S} _.
Arguments entropy {S} _.
Arguments trace {S} _.

Definition with_scope {S} (f : gmap string SVal -> gmap string SVal) (s : State S) : State S :=
  {| scope := f (scope s); db := db s; store := store s; now := now s;
     entropy := entropy s; trace := trace s |}.

Definition with_db {S} (f : Database -> Database) (s : State S) : State S :=
  {| scope := scope s; db := f (db s); store := store s; now := now s;
     entropy := entropy s; trace := trace s |}.

Definition emit {S} (e : Event) : M (State S) unit :=
  modify (fun s => {| scope := scope s; db := db s; store := store s; now := now s;
                      entropy := entropy s; trace := e :: trace s |}).

(** [request.scope.get(key)]. *)
Definition scope_get {S} (key : string) : M (State S) SVal :=
  gets (fun s => default SNone (scope s !! key)).

(** [request.scope[key] = v]. *)
Definition scope_set {S} (key : string) (v : SVal) : M (State S) unit :=
  modify (with_scope (insert key v)).

(** Starlette's [HTTPConnection.auth] and [HTTPConnection.user]:
    [assert key in self.scope], then [self.scope[key]]. *)
Definition scope_attr {S} (key : string) : M (State S) SVal :=
  fun s => match scope s !! key with
           | Some v => (Return v, s)
           | None => (Raise AssertionError, s)
           end.

(** ** Token transport: [AuthBackend.get_user_token] *)

(** [fastapi.security.utils.get_authorization_scheme_param]. *)
Definition get_authorization_scheme_param (authorization : option string)
  : string * string :=
  match authorization with
  | None => ("", "")
  | Some v => if PyStr.truthy v then PyStr.partition_space v else ("", "")
  end.

(** [AuthBackend.get_user_token] (auth.py, lines 38-44). *)
Definition get_user_token (request : Request) : option string :=
  let authorization :=
    PyStr.or_else (headers request !! "Authorization")
                  (cookies request !! "Authorization") in
  let '(scheme, token) := get_authorization_scheme_param authorization in
  if (negb (PyStr.truthy_opt authorization)
      || negb (String.eqb (PyStr.lower scheme) "bearer"))%bool
  then None
  else Some token.

(** ** The engine: [AuthBackend] and [Auth] *)

(** [roles], [groups] and [permissions] of [requires]:
    [Union[str, Sequence[str]] = None]. *)
Inductive Keys :=
| KNone
| KStr (s : string)
| KSeq (l : list string).

(** [bool(keys)]: [None], the empty string and an empty sequence are falsy. *)
Definition truthy_keys (k : Keys) : bool :=
  match k with
  | KNone => false
  | KStr s => PyStr.truthy s
  | KSeq l => match l with [] => false | _ :: _ => true end
  end.

(** [[keys] if isinstance(keys, str) else list(keys)]; the code evaluates
    it on truthy arguments only, so the [None] case is never reached. *)
Definition keys_list (k : Keys) : list string :=
  match k with
  | KNone => []
  | KStr s => [s]
  | KSeq l => l
  end.

(** What [depend] and the wrappers return or are configured with: a
    [bool], a [RedirectResponse] or another [Response]. *)
Inductive Value :=
| VBool (b : bool)
| VRedirectResponse (url : string) (status_code : Z)
| VResponse (body : string).

(** The arguments of [Auth.requires] (lines 97-104). *)
Record Requires := {
  roles : Keys;
  groups : Keys;
  permissions : Keys;
  status_code : Z;
  redirect : option string;
  response : option Value
}.

(** [requires()] with every argument left at its default. *)
Definition requires_defaults : Requires :=
  {| roles := KNone; groups := KNone; permissions := KNone;
     status_code := 403; redirect := None; response := None |}.

(** Modelled from the spec: the any-of test behind [BaseUser.has_role],
    [has_group] and [has_permission] of auth/models.py, which is not among
    the sources. Section 4.3: the identity's key set is loaded and at
    least one requested key must be present in it. *)
Definition any_of (have : gset string) (want : list string) : bool :=
  existsb (fun k => bool_decide (k ∈ have)) want.

Section Engine.
Context {S : Type} `{TokenStore S}.

#[local] Abbreviation St := (State S).

(** [await self.token_store.read_token(token)]. *)
Definition store_read (token : string) : M St (option TokenData) :=
  exec emit (TokenRead token) in
  gets (fun s => read_token (now s) token (store s)).

(** [await self.token_store.write_token(payload)]. *)
Definition store_write (payload : TokenData) : M St string :=
  exec emit (TokenWrite payload) in
  fun s =>
    let rnd := hd "" (entropy s) in
    let '(token, st') := write_token (now s) rnd payload (store s) in
    (Return token,
     {| scope := scope s; db := db s; store := st'; now := now s;
        entropy := tl (entropy s); trace := trace s |}).

(** [Auth.get_user_by_whereclause] (lines 84-87): the first row that
    satisfies the clause, or [None]. *)
Definition get_user_by_whereclause (whereclause : User -> bool) : M St (option User) :=
  exec emit UserSelect in
  gets (fun s => find whereclause (users (db s))).

(** [Auth.get_user_by_username] (lines 79-82). *)
Definition get_user_by_username (name : string) : M St (option User) :=
  get_user_by_whereclause (fun u => String.eqb (username u) name).

(** [AuthBackend.authenticate] (lines 46-56). *)
Definition authenticate (self : Auth) (request : Request) : M St (SVal * SVal) :=
  let* cached := scope_get "auth" in
  if truthy_val cached then
    let* a := scope_get "auth" in
    let* u := scope_get "user" in
    ret (a, u)
  else
    exec scope_set "auth" (SAuth self) in
    exec scope_set "user" SNone in
    let token := get_user_token request in
    if negb (PyStr.truthy_opt token) then ret (SAuth self, SNone)
    else
      let* token_data := store_read (default "" token) in
      exec match token_data with
           | Some td =>
               let* u := get_user_by_username (td_username td) in
               scope_set "user" (of_optional u)
           | None => ret tt
           end in
      let* a := scope_attr "auth" in
      let* u := scope_attr "user" in
      ret (a, u).

(** [Auth.authenticate_user] (lines 89-95). Line 92 reads
    [user.password] before line 93 tests [user]. *)
Definition authenticate_user (self : Auth) (name : string) (pass : Password)
  : M St (option User) :=
  let* user := get_user_by_username name in
  let pwd := secret_value pass in
  let* pwd2 := match user with
               | Some u => ret (secret_value (password u))
               | None => raise AttributeError
               end in
  match user with
  | Some u =>
      exec emit PasswordVerify in
      if verify (pwd_context self) pwd pwd2 then ret (Some u) else ret None
  | None => ret None
  end.

(** [conn.user.has_group(groups_list, session=session)] and its two
    siblings, on the value [conn.user]: a database read. *)
Definition has_group (user : User) (groups_list : list string) : M St bool :=
  gets (fun s => any_of (group_keys (db s) (id user)) groups_list).
Definition has_role (user : User) (roles_list : list string) : M St bool :=
  gets (fun s => any_of (role_keys (db s) (id user)) roles_list).
Definition has_permission (user : User) (permissions_list : list string) : M St bool :=
  gets (fun s => any_of (permission_keys (db s) (id user)) permissions_list).

(** One dimension of [has_requires]:
    [if keys: keys_list = ...; if not await has(keys_list): return False]. *)
Definition dimension (keys : Keys) (has : list string -> M St bool) : M St bool :=
  if truthy_keys keys then has (keys_list keys) else ret true.

(** [Auth.requires.has_requires] (lines 106-124). *)
Definition has_requires (self : Auth) (a : Requires) (conn : Request) : M St bool :=
  exec authenticate self conn in
  let* conn_user := scope_attr "user" in
  if negb (truthy_val conn_user) then ret false
  else
    match conn_user with
    | SUser user =>
        let* ok := dimension (groups a) (has_group user) in
        if negb ok then ret false else
        let* ok := dimension (roles a) (has_role user) in
        if negb ok then ret false else
        let* ok := dimension (permissions a) (has_permission user) in
        if negb ok then ret false else
        ret true
    | _ =>
        if (truthy_keys (groups a) || truthy_keys (roles a)
            || truthy_keys (permissions a))%bool
        then raise AttributeError else ret true
    end.

(** [Auth.requires.depend] (lines 126-135). *)
Definition depend (self : Auth) (a : Requires) (request : Request) : M St Value :=
  let* ok := has_requires self a request in
  if negb ok then
    match redirect a with
    | Some name => ret (VRedirectResponse (url_for request name) 303)
    | None =>
        match response a with
        | Some r => ret r
        | None => raise (HTTPException (status_code a))
        end
    end
  else ret (VBool true).

(** [async_wrapper] (lines 170-178): [func] runs when [depend] returned
    [True]; otherwise what [depend] returned is the response. *)
Definition async_wrapper (self : Auth) (a : Requires)
    (func : Request -> M St Value) (request : Request) : M St Value :=
  let* r := depend self a request in
  match r with
  | VBool true => func request
  | _ => ret r
  end.

End Engine.

(** ** The login and registration handlers (admin.py) *)

(** Modelled from the spec: [UserLoginOut] of auth/schemas.py, which is
    not among the sources. Section 6: the identity's fields together with
    an access token. *)
Record UserLoginOut := {
  identity : User;
  access_token : option string
}.

(** [schema_submit_out.parse_obj(user)]. *)
Definition parse_obj (u : User) : UserLoginOut :=
  {| identity := u; access_token := None |}.

(** [fastapi_amis_admin]'s response envelope [BaseApiOut]. A field the
    caller does not pass keeps the class default: [status] 0, [code]
    [None], [data] [None]; [msg = None] stands for the default message. *)
Record BaseApiOut := {
  status : Z;
  code : option Z;
  msg : option string;
  data : option UserLoginOut
}.

(** The submitted login form ([UserLoginIn]). *)
Record LoginIn := {
  login_username : string;
  login_password : Password
}.

(** The submitted registration form ([UserRegIn]). *)
Record RegIn := {
  reg_username : string;
  reg_password : Password;
  reg_email : string
}.

(** What [user_model.parse_obj(data)] gives the fields the form does not
    carry. The model class is declared in auth/models.py, which is not
    among the sources, so its defaults are parameters: the [id] of an
    object that has not been saved, and the [is_active] flag of a new
    user. *)
Record UserModel := {
  unsaved_id : Z;
  default_is_active : bool
}.

(** What [session.execute(stmt)] does with the insert: it raises, or it
    returns a result with its [rowcount] and [lastrowid]. *)
Inductive Executed :=
| ExecuteRaises
| ExecuteResult (rowcount : Z) (rowid : Z).

(** The storage behind [request.auth.db]: its answer to the insert of the
    given values into the given table. The key is not among the values;
    the [id] field of the argument holds the unsaved one. *)
Definition Storage : Type := Database -> User -> Executed.

(** [self.user_model.parse_obj(data)] (line 109). *)
Definition parsed_user (model : UserModel) (data : RegIn) : User :=
  {| id := unsaved_id model; username := reg_username data;
     password := SecretStr (secret_value (reg_password data));
     email := reg_email data; is_active := default_is_active model |}.

(** [values] of lines 110-111: the fields of the parsed user, with the
    hash in the place of the password. *)
Definition insert_values (model : UserModel) (auth : Auth) (data : RegIn) : User :=
  {| id := unsaved_id model; username := reg_username data;
     password := SecretStr (hash (pwd_context auth) (secret_value (reg_password data)));
     email := reg_email data; is_active := default_is_active model |}.

(** [user.id = i] (line 118), and the key the stored row gets. *)
Definition with_id (u : User) (i : Z) : User :=
  {| id := i; username := username u; password := password u;
     email := email u; is_active := is_active u |}.

Section Admin.
Context {S : Type} `{TokenStore S}.

#[local] Abbreviation St := (State S).

(** Attribute access on [request.auth]: only an [Auth] has the methods
    the handlers call. *)
Definition as_auth (v : SVal) : M St Auth :=
  match v with
  | SAuth a => ret a
  | _ => raise AttributeError
  end.

(** [UserLoginFormAdmin.handle] (admin.py, lines 34-48). *)
Definition login_handle (request : Request) (data : LoginIn) : M St BaseApiOut :=
  let* request_user := scope_attr "user" in
  if truthy_val request_user then
    match request_user with
    | SUser u =>
        ret {| status := 0; code := Some 1; msg := Some "用户已登录";
               data := Some (parse_obj u) |}
    | _ => raise ValidationError
    end
  else
    let* request_auth := scope_attr "auth" in
    let* auth := as_auth request_auth in
    let* user := authenticate_user auth (login_username data) (login_password data) in
    match user with
    | None =>
        ret {| status := -1; code := None; msg := Some "用户名或密码不正确!";
               data := None |}
    | Some u =>
        if negb (is_active u) then
          ret {| status := -2; code := None; msg := Some "用户状态未激活!";
                 data := None |}
        else
          let token_info := parse_obj u in
          let* request_auth := scope_attr "auth" in
          let* auth := as_auth request_auth in
          let* token := store_write (user_dict u) in
          ret {| status := 0; code := Some 0; msg := None;
                 data := Some {| identity := identity token_info;
                                 access_token := Some token |} |}
    end.

(** The cookie [route_submit] sets (lines 50-57 and 127-134):
    [Authorization] with the value ['bearer ' + access_token], on a
    result with [status == 0 and code == 0] only. *)
Definition route_submit (result : BaseApiOut)
  : Result (option (string * string)) :=
  if (Z.eqb (status result) 0 && bool_decide (code result = Some 0))%bool then
    match data result with
    | None => Raise AttributeError
    | Some d =>
        match access_token d with
        | None => Raise TypeError
        | Some token => Return (Some ("Authorization", "bearer " ++ token))
        end
    end
  else Return None.

(** The key an auto-incrementing table gives its next row. *)
Definition lastrowid (d : Database) : Z :=
  1 + fold_right Z.max 0 (map id (users d)).

(** [UserRegFormAdmin.handle] (admin.py, lines 100-125). [model] is
    [self.user_model] and [execute] the storage behind
    [request.auth.db]. The insert carries the hashed password; the user
    object handed on keeps the submitted one, and gets the new key only
    when [result.rowcount] is truthy, which is also when the insert is
    committed. Whatever the [try] block raises becomes HTTP 500. *)
Definition reg_handle (model : UserModel) (execute : Storage)
    (request : Request) (data : RegIn) : M St BaseApiOut :=
  let* request_auth := scope_attr "auth" in
  let* auth := as_auth request_auth in
  let* user := get_user_by_username (reg_username data) in
  match user with
  | Some _ =>
      ret {| status := -1; code := None; msg := Some "用户名已注册!"; data := None |}
  | None =>
      let* request_auth := scope_attr "auth" in
      let* auth := as_auth request_auth in
      let* user := get_user_by_whereclause
                     (fun u => String.eqb (email u) (reg_email data)) in
      match user with
      | Some _ =>
          ret {| status := -2; code := None; msg := Some "邮箱已注册!"; data := None |}
      | None =>
          let user := parsed_user model data in
          let* request_auth := scope_attr "auth" in
          let* auth := as_auth request_auth in
          let values := insert_values model auth data in
          exec emit UserInsert in
          let* result := gets (fun s => execute (db s) values) in
          let* user :=
            match result with
            | ExecuteRaises => raise (HTTPException 500)
            | ExecuteResult rowcount rowid =>
                if Z.eqb rowcount 0 then ret user
                else
                  exec modify (with_db (fun d =>
                         {| users := users d ++ [with_id values rowid];
                            role_keys := role_keys d;
                            group_keys := group_keys d;
                            permission_keys := permission_keys d |})) in
                  ret (with_id user rowid)
            end in
          let token_info := parse_obj user in
          let* request_auth := scope_attr "auth" in
          let* auth := as_auth request_auth in
          let* token := store_write (user_dict user) in
          ret {| status := 0; code := Some 0; msg := Some "注册成功!";
                 data := Some {| identity := identity token_info;
                                 access_token := Some token |} |}
      end
  end.

End Admin.

(** ** The token stores (auth/backends) *)

(** Modelled from the spec: the expiry test of the token stores, whose
    sources (auth/backends) are missing. Section 4.1: an expired token
    reads as absent; a token without expiry never expires. An expiry
    instant is over once the clock has reached it. *)
Definition expired (now : nat) (expires_at : option nat) : bool :=
  match expires_at with
  | Some e => (e <=? now)%nat
  | None => false
  end.

(** Modelled from the spec: the expiry instant the token stores
    (auth/backends, missing from the sources) give a token issued at
    [now]; Section 3: the expiry of a token record is optional. *)
Definition expiry_from (now : nat) (expire_seconds : option nat) : option nat :=
  (fun d => (now + d)%nat) <$> expire_seconds.

Module DbTokenStore.

(** Modelled from the spec: the token record of the database-backed
    store, auth/backends/db.py, which is not among the sources.
    Section 4.1: the store persists the token, its payload and its
    expiry. The token string is the key of the table. *)
Record TokenRecord := {
  payload : TokenData;
  expires_at : option nat
}.

(** Modelled from the spec: the state of [DbTokenStore]
    (auth/backends/db.py is not among the sources): how long a token
    lives, if it expires at all, and the table of records. *)
Record t := {
  expire_seconds : option nat;
  rows : gmap string TokenRecord
}.

(** Modelled from the spec: [DbTokenStore.write_token]
    (auth/backends/db.py is not among the sources). Section 4.1: it
    generates a random token string, inserts the record and returns the
    string. [rnd] is what the random source yielded. *)
Definition write_token (now : nat) (rnd : string) (p : TokenData) (st : t)
  : string * t :=
  (rnd,
   {| expire_seconds := expire_seconds st;
      rows := <[rnd := {| payload := p;
                          expires_at := expiry_from now (expire_seconds st) |}]>
                (rows st) |}).

(** Modelled from the spec: [DbTokenStore.read_token]
    (auth/backends/db.py is not among the sources). Section 4.1: it
    looks the token string up; a record that is found but expired
    counts as absent. *)
Definition read_token (now : nat) (token : string) (st : t) : option TokenData :=
  match rows st !! token with
  | Some r => if expired now (expires_at r) then None else Some (payload r)
  | None => None
  end.

(** Modelled from the spec: [DbTokenStore.destroy_token]
    (auth/backends/db.py is not among the sources). Section 4.1: it
    deletes the record; deleting a token that is not there is a
    successful no-op. *)
Definition destroy_token (token : string) (st : t) : Result unit * t :=
  (Return tt,
   {| expire_seconds := expire_seconds st; rows := delete token (rows st) |}).

End DbTokenStore.

#[global] Instance db_token_store : TokenStore DbTokenStore.t := {|
  read_token := DbTokenStore.read_token;
  write_token := DbTokenStore.write_token;
  destroy_token := DbTokenStore.destroy_token
|}.

Module JwtTokenStore.

(** Modelled from the spec: the claims a signed token carries
    (auth/backends/jwt.py is not among the sources). Section 4.1: the
    payload and the expiry. *)
Record Claims := {
  claims_data : TokenData;
  claims_exp : option nat
}.

(** Modelled from the spec: the state of [JwtTokenStore]: the signing
    key and the lifetime of a token. It keeps no record of the tokens
    it issued. *)
Record t := {
  secret_key : string;
  expire_seconds : option nat
}.

Section Codec.
(** The signing library: [jwt_encode key claims] is the signed string,
    [jwt_decode key token] the claims of a well-formed token signed
    with [key], and [None] for any other string. *)
Variable jwt_encode : string -> Claims -> string.
Variable jwt_decode : string -> string -> option Claims.

(** Modelled from the spec: [JwtTokenStore.write_token]
    (auth/backends/jwt.py is not among the sources). Section 4.1: it
    encodes payload and expiry into a signed string. *)
Definition write_token (now : nat) (rnd : string) (p : TokenData) (st : t)
  : string * t :=
  (jwt_encode (secret_key st)
     {| claims_data := p; claims_exp := expiry_from now (expire_seconds st) |},
   st).

(** Modelled from the spec: [JwtTokenStore.read_token]
    (auth/backends/jwt.py is not among the sources). Section 4.1: it
    fails closed: absent on a signature mismatch, on malformed input
    and on expiry; it never raises. *)
Definition read_token (now : nat) (token : string) (st : t) : option TokenData :=
  match jwt_decode (secret_key st) token with
  | Some c => if expired now (claims_exp c) then None else Some (claims_data c)
  | None => None
  end.

(** Modelled from the spec: [JwtTokenStore.destroy_token]
    (auth/backends/jwt.py is not among the sources). Section 4.1: it
    always fails with the unsupported-operation signal; the test
    suite expects [NotImplementedError]. *)
Definition destroy_token (token : string) (st : t) : Result unit * t :=
  (Raise NotImplementedError, st).

Definition token_store : TokenStore t :=
  Build_TokenStore t read_token write_token destroy_token.

End Codec.

End JwtTokenStore.

(** ** The token endpoint, the page guard and the admin hooks *)

Section Routes.
Context {S : Type} `{TokenStore S}.

#[local] Abbreviation St := (State S).

(** [v is None]. *)
Definition is_none (v : SVal) : bool :=
  match v with SNone => true | _ => false end.

(** [AuthRouter.router_token.oauth_token] (auth.py, lines 262-274): the
    envelope it returns, and the cookie it sets on the response. *)
Definition oauth_token (request : Request) (name pass : string)
  : M St (BaseApiOut * option (string * string)) :=
  let* current := scope_get "user" in
  exec (if is_none current then
          let* request_auth := scope_attr "auth" in
          let* auth := as_auth request_auth in
          let* user := authenticate_user auth name (PlainStr pass) in
          scope_set "user" (of_optional user)
        else ret tt) in
  let* current := scope_get "user" in
  if is_none current then
    ret ({| status := -1; code := None;
            msg := Some "Incorrect username or password!"; data := None |},
         None)
  else
    let* request_user := scope_attr "user" in
    match request_user with
    | SUser u =>
        let token_info := parse_obj u in
        let* request_auth := scope_attr "auth" in
        let* auth := as_auth request_auth in
        let* token := store_write (user_dict u) in
        ret ({| status := 0; code := None; msg := None;
                data := Some {| identity := identity token_info;
                                access_token := Some token |} |},
             Some ("Authorization", "bearer " ++ token))
    | _ => raise ValidationError
    end.

(** [UserAuthApp.has_page_permission] (app.py, lines 44-45).
    [super_has_page_permission] is the inherited check of the admin
    framework; [requires(...)(request)] is [depend(request)], because the
    decorator is handed a [Request]. *)
Definition has_page_permission (super_has_page_permission : Request -> M St bool)
    (request : Request) : M St Value :=
  let* inherited := super_has_page_permission request in
  if negb inherited then ret (VBool false)
  else
    let* request_auth := scope_attr "auth" in
    let* auth := as_auth request_auth in
    depend auth
      {| roles := KStr "admin"; groups := KNone; permissions := KNone;
         status_code := 403; redirect := None; response := Some (VBool false) |}
      request.

(** [UserAdmin.on_update_pre] (admin.py, lines 172-177), on the
    dictionary the inherited hook returned. *)
Definition on_update_pre (request : Request) (data : gmap string string)
  : M St (gmap string string) :=
  if PyStr.truthy_opt (data !! "password") then
    let* request_auth := scope_attr "auth" in
    let* auth := as_auth request_auth in
    ret (<["password" := hash (pwd_context auth) (default "" (data !! "password"))]> data)
  else ret data.

End Routes.

(** ** The decorator (auth.py, lines 137-197) *)

(** What [decorator] is applied to: nothing, a request, or a function
    with its parameter names and whether it is a coroutine function. *)
Inductive Func :=
| FuncNone
| FuncRequest (r : Request)
| FuncDef (parameters : list string) (coroutine : bool).

(** What [decorator] returns or does. *)
Inductive Decorated :=
| DDepend
| DDependOn (r : Request)
| DWebsocketWrapper (idx : nat)
| DAsyncWrapper (idx : nat)
| DSyncWrapper (idx : nat)
| DRaiseException.

(** The loop of lines 143-150 over [enumerate(sig.parameters.values())],
    from index [idx] on: the first parameter named [request] or
    [websocket], with its index. *)
Fixpoint scan_parameters (parameters : list string) (idx : nat)
  : option (nat * string) :=
  match parameters with
  | [] => None
  | name :: rest =>
      if (String.eqb name "request" || String.eqb name "websocket")%bool
      then Some (idx, name)
      else scan_parameters rest (Datatypes.S idx)
  end.

(** [Auth.requires.decorator] (lines 137-197): which wrapper it builds. *)
Definition decorator (func : Func) : Decorated :=
  match func with
  | FuncNone => DDepend
  | FuncRequest r => DDependOn r
  | FuncDef parameters coroutine =>
      match scan_parameters parameters 0 with
      | None => DRaiseException
      | Some (idx, type_) =>
          if String.eqb type_ "websocket" then DWebsocketWrapper idx
          else if coroutine then DAsyncWrapper idx
          else DSyncWrapper idx
      end
  end.

(** An argument a wrapped function is called with. *)
Inductive PyArg :=
| ArgRequest (r : Request)
| ArgWebSocket (c : Request)
| ArgOther.

(** How a wrapper's first two lines end. *)
Inductive ArgOutcome :=
| GotRequest (r : Request)
| RaisesIndexError
| RaisesAssertionError.

(** The first two lines of [async_wrapper] and [sync_wrapper]:
    [request = kwargs.get("request", args[idx] if args else None)],
    then [assert isinstance(request, Request)]. The default is computed
    before [kwargs] is looked at. *)
Definition wrapper_request (idx : nat) (args : list PyArg)
    (kwargs : gmap string PyArg) : ArgOutcome :=
  match args with
  | _ :: _ =>
      match args !! idx with
      | None => RaisesIndexError
      | Some positional =>
          match default positional (kwargs !! "request") with
          | ArgRequest r => GotRequest r
          | _ => RaisesAssertionError
          end
      end
  | [] =>
      match kwargs !! "request" with
      | Some (ArgRequest r) => GotRequest r
      | _ => RaisesAssertionError
      end
  end.

(** * The vocabulary of the statements *)

(** The scheme and the parameter of an [Authorization] value, as
    [get_authorization_scheme_param] splits it. *)
Definition scheme_of (v : string) : string :=
  fst (get_authorization_scheme_param (Some v)).
Definition param_of (v : string) : string :=
  snd (get_authorization_scheme_param (Some v)).

(** The keys a requirement argument asks for: none for [None] and for
    the empty string, the one string otherwise, or the members of the
    sequence. *)
Definition required (k : Keys) : list string :=
  match k with
  | KNone => []
  | KStr EmptyString => []
  | KStr (String c s) => [String c s]
  | KSeq l => l
  end.

(** A key set intersects a list of requested keys. *)
Definition intersects (have : gset string) (want : list string) : Prop :=
  ∃ k, k ∈ want ∧ k ∈ have.

(** [conn.user] once the resolver has run on the connection: the
    identity the connection carries, [SNone] when it carries none. *)
Definition resolved_user {S : Type} `{TokenStore S}
    (self : Auth) (conn : Request) : M (State S) SVal :=
  exec authenticate self conn in scope_attr "user".

(** What one dimension of the guard computes. *)
Definition dimension_ok (k : Keys) (have : gset string) : bool :=
  (negb (truthy_keys k) || any_of have (keys_list k))%bool.

(** The token a request presents, [None] when it presents none or an
    empty one. *)
Definition presented (request : Request) : option string :=
  match get_user_token request with
  | Some token => if PyStr.truthy token then Some token else None
  | None => None
  end.

(** The row a registration stores under the key [rowid]: the submitted
    name and email, the hash of the submitted password, and the model's
    default for [is_active]. *)
Definition registered_row (model : UserModel) (auth : Auth) (data0 : RegIn)
    (rowid : Z) : User :=
  {| id := rowid; username := reg_username data0;
     password := SecretStr (hash (pwd_context auth) (secret_value (reg_password data0)));
     email := reg_email data0; is_active := default_is_active model |}.

(** The insert of the registration went through: the storage answered
    with a truthy [rowcount] and the key [rowid]. *)
Definition inserted (execute : Storage) (model : UserModel) (auth : Auth)
    (data0 : RegIn) (d : Database) (rowid : Z) : Prop :=
  ∃ rowcount, rowcount ≠ 0
              ∧ execute d (insert_values model auth data0)
                = ExecuteResult rowcount rowid.

(** The login form that repeats the credentials of a registration. *)
Definition login_of (data0 : RegIn) : LoginIn :=
  {| login_username := reg_username data0; login_password := reg_password data0 |}.

(** No parameter before position [i] is named [request] or
    [websocket]. *)
Definition none_before (parameters : list string) (i : nat) : Prop :=
  ∀ j name, (j < i)%nat → parameters !! j = Some name →
            name ≠ "request" ∧ name ≠ "websocket".

(** ** Sample data *)

(** A password context that prefixes instead of hashing. *)
Definition sample_context : CryptContext :=
  {| verify := fun plain hashed => String.eqb ("h:" ++ plain) hashed;
     hash := fun plain => "h:" ++ plain |}.

Definition sample_auth : Auth :=
  {| auth_id := 0; pwd_context := sample_context |}.

Definition alice : User :=
  {| id := 1; username := "alice"; password := SecretStr "h:wonderland";
     email := "alice@example.org"; is_active := true |}.

Definition bob : User :=
  {| id := 2; username := "bob"; password := SecretStr "h:builder";
     email := "bob@example.org"; is_active := false |}.

(** [alice] has the role [admin]; [bob] has the role [vip]. *)
Definition sample_db : Database :=
  {| users := [alice; bob];
     role_keys := fun i => if Z.eqb i 1 then {["admin"]}
                           else if Z.eqb i 2 then {["vip"]} else ∅;
     group_keys := fun _ => ∅;
     permission_keys := fun _ => ∅ |}.

(** A database-backed store that holds one token, issued to [alice]. *)
Definition sample_store : DbTokenStore.t :=
  {| DbTokenStore.expire_seconds := None;
     DbTokenStore.rows :=
       {[ "t-alice" := {| DbTokenStore.payload := user_dict alice;
                          DbTokenStore.expires_at := None |} ]} |}.

Definition sample_state (sc : gmap string SVal) : State DbTokenStore.t :=
  {| scope := sc; db := sample_db; store := sample_store; now := 0%nat;
     entropy := ["t-next"]; trace := [] |}.

(** A request with the given [Authorization] header and no cookie. *)
Definition sample_request (authorization : option string) : Request :=
  {| headers := from_option (fun v => {[ "Authorization" := v ]}) ∅ authorization;
     cookies := ∅;
     url_for := fun name => "/" ++ name |}.

(** The scope the resolver leaves for an anonymous connection, and the
    one it leaves for [alice]. *)
Definition anonymous_scope : gmap string SVal :=
  {[ "auth" := SAuth sample_auth; "user" := SNone ]}.
Definition alice_scope : gmap string SVal :=
  {[ "auth" := SAuth sample_auth; "user" := SUser alice ]}.

(** The scope of a connection resolved to [bob]. *)
Definition bob_scope : gmap string SVal :=
  {[ "auth" := SAuth sample_auth; "user" := SUser bob ]}.

(** A user model whose new users are active, one whose new users are
    not, and a storage that inserts with the next key, one that reports
    no row and one that fails. *)
Definition sample_model : UserModel :=
  {| unsaved_id := 0; default_is_active := true |}.
Definition moderated_model : UserModel :=
  {| unsaved_id := 0; default_is_active := false |}.
Definition autoincrement : Storage :=
  fun d _ => ExecuteResult 1 (lastrowid d).

(** A registration form for a name and an email that are still free. *)
Definition carol_form : RegIn :=
  {| reg_username := "carol"; reg_password := PlainStr "s3cret";
     reg_email := "carol@example.org" |}.

(** A login form. *)
Definition login_form (name pass : string) : LoginIn :=
  {| login_username := name; login_password := PlainStr pass |}.

(** An inherited page check that always answers [b]. *)
Definition inherited_check (b : bool) (request : Request)
  : M (State DbTokenStore.t) bool :=
  ret b.

(** A handler that answers with a fixed response. *)
Definition sample_handler (request : Request) : M (State DbTokenStore.t) Value :=
  ret (VResponse "secret page").

(** A codec that tags instead of signing: the token is the key followed
    by the claims, numbers in unary. It decodes what it encoded and
    refuses a string that does not start with the key. *)
Module TaggedCodec.

Fixpoint tally (n : nat) (rest : string) : string :=
  match n with
  | O => String "."%char rest
  | Datatypes.S m => String "1"%char (tally m rest)
  end.

Fixpoint untally (s : string) : option (nat * string) :=
  match s with
  | EmptyString => None
  | String c r =>
      if Ascii.eqb c "."%char then Some (O, r)
      else if Ascii.eqb c "1"%char then
        match untally r with
        | Some (n, r') => Some (Datatypes.S n, r')
        | None => None
        end
      else None
  end.

Fixpoint strip_prefix (k s : string) : option string :=
  match k, s with
  | EmptyString, _ => Some s
  | String a k', String b s' =>
      if Ascii.eqb a b then strip_prefix k' s' else None
  | String _ _, EmptyString => None
  end.

Definition encode (key : string) (c : JwtTokenStore.Claims) : string :=
  key ++ tally (encode_nat (td_id (JwtTokenStore.claims_data c)))
           (tally (encode_nat (JwtTokenStore.claims_exp c))
              (td_username (JwtTokenStore.claims_data c))).

Definition decode (key token : string) : option JwtTokenStore.Claims :=
  body ← strip_prefix key token;
  '(n, r) ← untally body;
  i ← decode_nat n;
  '(m, name) ← untally r;
  e ← decode_nat m;
  Some {| JwtTokenStore.claims_data := {| td_id := i; td_username := name |};
          JwtTokenStore.claims_exp := e |}.

End TaggedCodec.

(** * Properties *)

Ltac run :=
  unfold bind, ret, raise, gets, modify, emit, scope_get, scope_set,
    scope_attr, with_scope; simpl.

Ltac lookups :=
  repeat (first [ rewrite lookup_insert_eq
                | rewrite lookup_insert_ne by done ]; simpl).

Ltac resolve :=
  lookups; eexists _, _, _; split; [reflexivity |]; simpl; lookups; done.

(** ** Token transport *)

Lemma truthy_nonempty (v : string) : v ≠ "" → PyStr.truthy v = true.
Proof. destruct v; [congruence | reflexivity]. Qed.

Lemma get_user_token_of_value (request : Request) (v : string) :
  v ≠ "" →
  PyStr.or_else (headers request !! "Authorization")
                (cookies request !! "Authorization") = Some v →
  get_user_token request =
    if String.eqb (PyStr.lower (scheme_of v)) "bearer"
    then Some (param_of v) else None.
Proof.
  intros Hv Hsel. unfold get_user_token, scheme_of, param_of.
  rewrite Hsel. simpl. rewrite (truthy_nonempty v Hv).
  destruct (PyStr.partition_space v) as [scheme token]. simpl.
  destruct (String.eqb (PyStr.lower scheme) "bearer"); reflexivity.
Qed.

Lemma get_user_token_no_value (request : Request) :
  PyStr.truthy_opt (PyStr.or_else (headers request !! "Authorization")
                                  (cookies request !! "Authorization")) = false →
  get_user_token request = None.
Proof.
  intros Hsel. unfold get_user_token. rewrite Hsel.
  destruct (get_authorization_scheme_param _); reflexivity.
Qed.

Lemma partition_space_scheme (scheme rest : string) :
  (∀ c, c ∈ list_ascii_of_string scheme → c ≠ " "%char) →
  PyStr.partition_space (scheme ++ " " ++ rest) = (scheme, rest).
Proof.
  induction scheme as [| c scheme IH]; intros Hns; simpl.
  - reflexivity.
  - destruct (Ascii.eqb_spec c " "%char) as [-> | _].
    + exfalso. apply (Hns " "%char); [left | reflexivity].
    + rewrite IH; [reflexivity |]. intros c' Hc'. apply Hns. by right.
Qed.

(** C8. Token extraction takes the token from the [Authorization] header
    when the header carries a value, whatever the cookie holds; it falls
    back to the cookie named [Authorization] when the header is absent
    (or empty); in both cases the selected value yields its parameter
    when its scheme, compared without regard to case, is [bearer], and no
    token otherwise; and there is no token when neither source carries a
    value. In particular the cookie that login writes, [bearer ] followed
    by the token, is read back as that token. *)
Theorem get_user_token_sources (request : Request) :
  let header := headers request !! "Authorization" in
  let cookie := cookies request !! "Authorization" in
  (∀ v, header = Some v → v ≠ "" →
        get_user_token request =
          if String.eqb (PyStr.lower (scheme_of v)) "bearer"
          then Some (param_of v) else None)
  ∧ (∀ v, header = None ∨ header = Some "" → cookie = Some v → v ≠ "" →
          get_user_token request =
            if String.eqb (PyStr.lower (scheme_of v)) "bearer"
            then Some (param_of v) else None)
  ∧ (header = None ∨ header = Some "" → cookie = None ∨ cookie = Some "" →
     get_user_token request = None)
  ∧ (∀ result name value token,
        route_submit result = Return (Some (name, value)) →
        data result ≫= access_token = Some token →
        header = None → cookies request !! name = Some value →
        get_user_token request = Some token).
Proof.
  simpl. repeat split.
  - intros v Hh Hv. apply get_user_token_of_value; [exact Hv |].
    rewrite Hh. unfold PyStr.or_else. simpl. by rewrite truthy_nonempty.
  - intros v Hh Hc Hv. apply get_user_token_of_value; [exact Hv |].
    rewrite Hc. by destruct Hh as [-> | ->].
  - intros Hh Hc. apply get_user_token_no_value.
    by destruct Hh as [-> | ->], Hc as [-> | ->].
  - intros result name value token Hsub Htok Hh Hc.
    unfold route_submit in Hsub.
    destruct (_ && _)%bool; [| discriminate].
    destruct (data result) as [d |]; [| discriminate]. simpl in Htok.
    rewrite Htok in Hsub. injection Hsub as <- <-.
    rewrite (get_user_token_of_value request ("bearer " ++ token)).
    + reflexivity.
    + discriminate.
    + rewrite Hh, Hc. reflexivity.
Qed.

(** ** The identity resolver *)

Section Resolver.
Context {S : Type} `{TokenStore S}.

(** Once ["auth"] is in the scope, [authenticate] answers from the
    scope and leaves the state as it is. *)
Lemma authenticate_cached (self : Auth) (request : Request) (s : State S) (a : SVal) :
  scope s !! "auth" = Some a → truthy_val a = true →
  authenticate self request s
    = (Return (a, default SNone (scope s !! "user")), s).
Proof.
  intros Ha Ht. unfold authenticate. run. rewrite Ha. simpl. rewrite Ht.
  simpl. by rewrite ?Ha.
Qed.

(** [authenticate] always returns, and what it returns is what the
    scope then holds under ["auth"] and ["user"]. *)
Lemma authenticate_returns (self : Auth) (request : Request) (s : State S) :
  ∃ a u s1,
    authenticate self request s = (Return (a, u), s1)
    ∧ scope s1 !! "auth" = Some a ∧ truthy_val a = true
    ∧ default SNone (scope s1 !! "user") = u
    ∧ db s1 = db s ∧ store s1 = store s.
Proof.
  unfold authenticate. run.
  destruct (scope s !! "auth") as [a |] eqn:Ha; simpl.
  - destruct (truthy_val a) eqn:Ht.
    + exists a, (default SNone (scope s !! "user")), s. by rewrite Ha.
    + destruct (PyStr.truthy_opt (get_user_token request)); simpl.
      * unfold store_read, get_user_by_username, get_user_by_whereclause. run.
        destruct (read_token _ _ _) as [td |]; simpl; resolve.
      * resolve.
  - destruct (PyStr.truthy_opt (get_user_token request)); simpl.
    + unfold store_read, get_user_by_username, get_user_by_whereclause. run.
      destruct (read_token _ _ _) as [td |]; simpl; resolve.
    + resolve.
Qed.

(** On a connection that has not been resolved, [authenticate] writes
    its own [Auth] and the identity it returns into the scope. *)
Lemma authenticate_unresolved (self : Auth) (request : Request) (s : State S) :
  truthy_val (default SNone (scope s !! "auth")) = false →
  ∃ u s1,
    authenticate self request s = (Return (SAuth self, u), s1)
    ∧ scope s1 !! "auth" = Some (SAuth self)
    ∧ scope s1 !! "user" = Some u.
Proof.
  intros Hfresh. unfold authenticate. run. rewrite Hfresh.
  destruct (PyStr.truthy_opt (get_user_token request)); simpl.
  - unfold store_read, get_user_by_username, get_user_by_whereclause. run.
    destruct (read_token _ _ _) as [td |]; simpl; lookups;
      (eexists _, _; split; [reflexivity |]; simpl; by lookups).
  - eexists _, _. split; [reflexivity |]. simpl. by lookups.
Qed.

(** C4. The first call of the resolver returns a pair and leaves
    exactly that pair in the connection scope, under ["auth"] and
    ["user"]: on an unresolved connection it writes its own [Auth] and
    the identity it found, on a resolved one it changes nothing. A second
    call on the same connection returns exactly the pair the scope holds
    since the first call, and it leaves the whole state unchanged: in
    particular the trace gains no token-store read and no identity
    lookup. *)
Theorem authenticate_idempotent (self : Auth) (request : Request) (s : State S) :
  ∃ a u s1,
    authenticate self request s = (Return (a, u), s1)
    ∧ scope s1 !! "auth" = Some a
    ∧ default SNone (scope s1 !! "user") = u
    ∧ (truthy_val (default SNone (scope s !! "auth")) = false →
       a = SAuth self ∧ scope s1 !! "user" = Some u)
    ∧ (truthy_val (default SNone (scope s !! "auth")) = true → s1 = s)
    ∧ authenticate self request s1 = (Return (a, u), s1)
    ∧ trace (snd (authenticate self request s1)) = trace s1.
Proof.
  destruct (authenticate_returns self request s)
    as (a & u & s1 & Hrun & Ha & Ht & Hu & _).
  exists a, u, s1. split; [exact Hrun |]. split; [exact Ha |].
  split; [exact Hu |]. split; [| split].
  - intros Hfresh.
    destruct (authenticate_unresolved self request s Hfresh)
      as (u' & s1' & Hrun' & _ & Hu').
    rewrite Hrun in Hrun'. by injection Hrun' as -> -> ->.
  - intros Hcached.
    destruct (scope s !! "auth") as [a0 |] eqn:Ha0; [| done].
    rewrite (authenticate_cached self request s a0 Ha0 Hcached) in Hrun.
    by injection Hrun as _ _ ->.
  - rewrite (authenticate_cached self request s1 a Ha Ht), Hu. by split.
Qed.

End Resolver.

(** ** The requirement guard *)

Lemma required_seq (l : list string) : required (KSeq l) = l.
Proof. by destruct l. Qed.

Lemma required_nil (k : Keys) : required k = [] ↔ truthy_keys k = false.
Proof. by destruct k as [| [| c s] | [| x l]]. Qed.

(** On the arguments the guard treats as given, the requested keys are
    the list the guard builds. *)
Lemma required_truthy (k : Keys) :
  truthy_keys k = true → required k = keys_list k.
Proof. by destruct k as [| [| c s] | [| x l]]. Qed.

Lemma any_of_intersects (have : gset string) (want : list string) :
  any_of have want = true ↔ intersects have want.
Proof.
  unfold any_of, intersects. rewrite existsb_exists. split.
  - intros (k & Hin & Hk). exists k. split.
    + by apply list_elem_of_In.
    + by apply bool_decide_eq_true in Hk.
  - intros (k & Hin & Hk). exists k. split.
    + by apply list_elem_of_In.
    + by apply bool_decide_eq_true.
Qed.

Section Guard.
Context {S : Type} `{TokenStore S}.

Lemma dimension_ok_spec (k : Keys) (have : gset string) :
  dimension_ok k have = true ↔ required k = [] ∨ intersects have (required k).
Proof.
  unfold dimension_ok. destruct (truthy_keys k) eqn:Ht; simpl.
  - split.
    + intros Hany. right. rewrite (required_truthy k Ht).
      by apply any_of_intersects.
    + intros [Hnil | Hi].
      * apply required_nil in Hnil. congruence.
      * rewrite (required_truthy k Ht) in Hi. by apply any_of_intersects.
  - split; [| done]. intros _. left. by apply required_nil.
Qed.

(** With identity [u] on the connection, the guard is the conjunction
    of its three dimensions, and it reads the state without changing
    more than the resolver did. *)
Lemma has_requires_user (self : Auth) (a : Requires) (conn : Request)
    (s : State S) (u : User) :
  fst (resolved_user self conn s) = Return (SUser u) →
  fst (has_requires self a conn s)
    = Return (dimension_ok (groups a) (group_keys (db s) (id u))
              && dimension_ok (roles a) (role_keys (db s) (id u))
              && dimension_ok (permissions a) (permission_keys (db s) (id u))).
Proof.
  unfold resolved_user, has_requires.
  destruct (authenticate_returns self conn s)
    as (a' & u' & s1 & Hrun & _ & _ & _ & Hdb & _).
  run. rewrite Hrun.
  destruct (scope s1 !! "user") as [v |]; simpl; [| discriminate].
  intros [= ->]. simpl.
  unfold dimension, has_group, has_role, has_permission, dimension_ok. run.
  rewrite <- Hdb.
  destruct (truthy_keys (groups a)); simpl;
    [destruct (any_of (group_keys (db s1) (id u)) _); simpl; [| done] |];
    (destruct (truthy_keys (roles a)); simpl;
     [destruct (any_of (role_keys (db s1) (id u)) _); simpl; [| done] |]);
    (destruct (truthy_keys (permissions a)); simpl;
     [destruct (any_of (permission_keys (db s1) (id u)) _); simpl |]); done.
Qed.

(** With no identity on the connection the guard fails. *)
Lemma has_requires_anonymous (self : Auth) (a : Requires) (conn : Request)
    (s : State S) :
  fst (resolved_user self conn s) = Return SNone →
  fst (has_requires self a conn s) = Return false.
Proof.
  unfold resolved_user, has_requires.
  destruct (authenticate_returns self conn s)
    as (a' & u' & s1 & Hrun & _).
  run. rewrite Hrun.
  destruct (scope s1 !! "user") as [v |]; simpl; [| discriminate].
  by intros [= ->].
Qed.

(** C1. On a connection whose resolved identity is [u], the guard built
    by [requires(roles=R, groups=G, permissions=P)] returns, and it
    returns true exactly when (R is empty or the role keys of [u]
    intersect R) and (G is empty or the group keys of [u] intersect G)
    and (P is empty or the permission keys of [u] intersect P). *)
Theorem has_requires_decision (self : Auth) (a : Requires) (conn : Request)
    (s : State S) (u : User) :
  fst (resolved_user self conn s) = Return (SUser u) →
  ∃ b, fst (has_requires self a conn s) = Return b
    ∧ (b = true ↔
         (required (roles a) = []
          ∨ intersects (role_keys (db s) (id u)) (required (roles a)))
         ∧ (required (groups a) = []
            ∨ intersects (group_keys (db s) (id u)) (required (groups a)))
         ∧ (required (permissions a) = []
            ∨ intersects (permission_keys (db s) (id u))
                         (required (permissions a)))).
Proof.
  intros Hu. eexists. split; [by apply has_requires_user |].
  rewrite !andb_true_iff, !dimension_ok_spec. tauto.
Qed.

(** C3. When roles, groups and permissions are all empty, the guard
    returns true on every connection that carries a resolved identity
    and false on every connection that carries none. *)
Theorem has_requires_unconstrained (self : Auth) (a : Requires) (conn : Request)
    (s : State S) :
  required (roles a) = [] → required (groups a) = [] →
  required (permissions a) = [] →
  (∀ u, fst (resolved_user self conn s) = Return (SUser u) →
        fst (has_requires self a conn s) = Return true)
  ∧ (fst (resolved_user self conn s) = Return SNone →
     fst (has_requires self a conn s) = Return false).
Proof.
  intros Hr Hg Hp. split.
  - intros u Hu. rewrite (has_requires_user self a conn s u Hu).
    f_equal. rewrite !andb_true_iff, !dimension_ok_spec. tauto.
  - apply has_requires_anonymous.
Qed.

End Guard.

(** ** The gate *)

Section Gate.
Context {S : Type} `{TokenStore S}.

(** C5. When the guard fails, [depend] does exactly one of three
    things, in this order of priority: with a redirect target
    configured it returns a redirect response with status 303; else
    with a substitute response configured it returns that response as
    it is; else it raises an HTTP error with the configured status
    code. The status code defaults to 403, and by default neither a
    redirect nor a substitute is configured. *)
Theorem depend_on_failure (self : Auth) (a : Requires) (request : Request)
    (s : State S) :
  fst (has_requires self a request s) = Return false →
  fst (depend self a request s)
    = match redirect a, response a with
      | Some name, _ => Return (VRedirectResponse (url_for request name) 303)
      | None, Some r => Return r
      | None, None => Raise (HTTPException (status_code a))
      end
  ∧ status_code requires_defaults = 403
  ∧ redirect requires_defaults = None
  ∧ response requires_defaults = None.
Proof.
  intros Hfail. split; [| done]. unfold depend. run.
  destruct (has_requires self a request s) as [r s1]. simpl in Hfail.
  subst r. simpl.
  destruct (redirect a); [done |]. by destruct (response a).
Qed.

(** When the guard passes, [depend] returns [True]. *)
Lemma depend_on_success (self : Auth) (a : Requires) (request : Request)
    (s : State S) :
  fst (has_requires self a request s) = Return true →
  fst (depend self a request s) = Return (VBool true).
Proof.
  intros Hok. unfold depend. run.
  destruct (has_requires self a request s) as [r s1]. simpl in Hok.
  by subst r.
Qed.

End Gate.

(** ** The credential verifier *)

Section Verifier.
Context {S : Type} `{TokenStore S}.

(** No row with the username: line 92 raises before line 93 can test
    [user]. *)
Lemma authenticate_user_no_row (self : Auth) (name : string) (pass : Password)
    (s : State S) :
  find (fun u => String.eqb (username u) name) (users (db s)) = None →
  fst (authenticate_user self name pass s) = Raise AttributeError.
Proof.
  intros Hfind. unfold authenticate_user, get_user_by_username,
    get_user_by_whereclause. run. by rewrite Hfind.
Qed.

(** A row with the username: the identity when the password verifies
    against the stored hash, [None] when it does not. *)
Lemma authenticate_user_row (self : Auth) (name : string) (pass : Password)
    (s : State S) (u : User) :
  find (fun u => String.eqb (username u) name) (users (db s)) = Some u →
  fst (authenticate_user self name pass s)
    = Return (if verify (pwd_context self) (secret_value pass)
                   (secret_value (password u))
              then Some u else None).
Proof.
  intros Hfind. unfold authenticate_user, get_user_by_username,
    get_user_by_whereclause. run. rewrite Hfind. simpl.
  by destruct (verify _ _ _).
Qed.

End Verifier.

(** ** The login and registration handlers *)

Section Handlers.
Context {S : Type} `{TokenStore S}.

(** C10. When the request already carries an authenticated identity,
    the login handler returns [code = 1] with that identity's data,
    whatever username and password were submitted, and it leaves the
    state as it found it: the trace gains no identity lookup, no
    password verification and no token write, and the token store is
    unchanged. *)
Theorem login_handle_already_authenticated (request : Request) (data0 : LoginIn)
    (s : State S) (u : User) :
  scope s !! "user" = Some (SUser u) →
  ∃ out,
    login_handle request data0 s = (Return out, s)
    ∧ code out = Some 1
    ∧ data out = Some (parse_obj u)
    ∧ trace (snd (login_handle request data0 s)) = trace s
    ∧ store (snd (login_handle request data0 s)) = store s.
Proof.
  intros Hu. unfold login_handle. run. rewrite Hu. simpl.
  eexists. split; [reflexivity |]. done.
Qed.

(** The login handler on a request without an identity, for a
    registered username. *)
Lemma login_handle_anonymous (request : Request) (data0 : LoginIn)
    (s : State S) (auth : Auth) (u : User) :
  scope s !! "auth" = Some (SAuth auth) →
  scope s !! "user" = Some SNone →
  find (fun u => String.eqb (username u) (login_username data0)) (users (db s))
    = Some u →
  ∃ out,
    fst (login_handle request data0 s) = Return out
    ∧ status out =
        if verify (pwd_context auth) (secret_value (login_password data0))
             (secret_value (password u))
        then (if is_active u then 0 else -2)
        else -1.
Proof.
  intros Ha Hu Hfind. unfold login_handle. run. rewrite Hu. simpl.
  rewrite Ha. simpl.
  unfold authenticate_user, get_user_by_username, get_user_by_whereclause.
  run. rewrite Hfind. simpl.
  destruct (verify _ _ _); simpl; [| by eexists].
  destruct (is_active u); simpl; [| by eexists].
  rewrite Ha. simpl. unfold store_write. run.
  destruct (write_token _ _ _ _). by eexists.
Qed.

(** The registration handler, by what the two look-ups find. *)
Lemma reg_handle_taken (model : UserModel) (execute : Storage)
    (request : Request) (data0 : RegIn) (s : State S) (auth : Auth) :
  scope s !! "auth" = Some (SAuth auth) →
  (is_Some (find (fun u => String.eqb (username u) (reg_username data0))
                 (users (db s))) →
   ∃ out, fst (reg_handle model execute request data0 s) = Return out ∧ status out = -1)
  ∧ (find (fun u => String.eqb (username u) (reg_username data0))
          (users (db s)) = None →
     is_Some (find (fun u => String.eqb (email u) (reg_email data0))
                   (users (db s))) →
     ∃ out, fst (reg_handle model execute request data0 s) = Return out ∧ status out = -2).
Proof.
  intros Ha. unfold reg_handle, get_user_by_username, get_user_by_whereclause.
  run. rewrite Ha. simpl. split.
  - intros [u ->]. by eexists.
  - intros -> [u Hu]. simpl. rewrite Ha. simpl. rewrite Hu. by eexists.
Qed.

(** C9, as amended. On a request that went through the resolver and
    carries no identity, the login handler returns [status = -1] when
    the username is registered and the password does not verify, and
    [status = -2] for a disabled identity supplying the correct
    password. The registration handler returns [status = -1] when the
    username is already registered, and [status = -2] when the username
    is free but the email is already registered. *)
Theorem handlers_rejection_status (model : UserModel) (execute : Storage)
    (request : Request) (s : State S) (auth : Auth) :
  scope s !! "auth" = Some (SAuth auth) →
  (scope s !! "user" = Some SNone →
   ∀ (data0 : LoginIn) (u : User),
     find (fun u => String.eqb (username u) (login_username data0))
          (users (db s)) = Some u →
     (verify (pwd_context auth) (secret_value (login_password data0))
             (secret_value (password u)) = false →
      ∃ out, fst (login_handle request data0 s) = Return out ∧ status out = -1)
     ∧ (verify (pwd_context auth) (secret_value (login_password data0))
               (secret_value (password u)) = true →
        is_active u = false →
        ∃ out, fst (login_handle request data0 s) = Return out ∧ status out = -2))
  ∧ (∀ data0 : RegIn,
       (is_Some (find (fun u => String.eqb (username u) (reg_username data0))
                      (users (db s))) →
        ∃ out, fst (reg_handle model execute request data0 s) = Return out ∧ status out = -1)
       ∧ (find (fun u => String.eqb (username u) (reg_username data0))
               (users (db s)) = None →
          is_Some (find (fun u => String.eqb (email u) (reg_email data0))
                        (users (db s))) →
          ∃ out, fst (reg_handle model execute request data0 s) = Return out ∧ status out = -2)).
Proof.
  intros Ha. split.
  - intros Hu data0 u Hfind.
    destruct (login_handle_anonymous request data0 s auth u Ha Hu Hfind)
      as (out & Hrun & Hst).
    split.
    + intros Hv. exists out. by rewrite Hv in Hst.
    + intros Hv Hact. exists out. by rewrite Hv, Hact in Hst.
  - intros data0. exact (reg_handle_taken model execute request data0 s auth Ha).
Qed.

End Handlers.

(** ** The token stores *)

(** The tagging codec decodes what it encoded. *)
Lemma untally_tally (n : nat) (rest : string) :
  TaggedCodec.untally (TaggedCodec.tally n rest) = Some (n, rest).
Proof. induction n as [| n IH]; simpl; [done |]. by rewrite IH. Qed.

Lemma strip_prefix_app (k s : string) : TaggedCodec.strip_prefix k (k ++ s) = Some s.
Proof.
  induction k as [| a k IH]; simpl; [done |].
  by rewrite Ascii.eqb_refl.
Qed.

Lemma tagged_decode_encode (key : string) (c : JwtTokenStore.Claims) :
  TaggedCodec.decode key (TaggedCodec.encode key c) = Some c.
Proof.
  unfold TaggedCodec.decode, TaggedCodec.encode. rewrite strip_prefix_app.
  cbn [mbind option_bind]. rewrite untally_tally.
  cbn [mbind option_bind]. rewrite decode_encode_nat.
  cbn [mbind option_bind]. rewrite untally_tally.
  cbn [mbind option_bind]. rewrite decode_encode_nat.
  cbn [mbind option_bind]. by destruct c as [[i name] e].
Qed.

(** C6. For the database-backed store and every payload [p]: reading the
    token that [write_token] returned gives [p] back, at any instant at
    which the record has not expired; after [destroy_token] on a token,
    [read_token] on it is absent; [destroy_token] succeeds; and on a
    token that was never issued it succeeds and leaves the store as it
    was. *)
Theorem db_token_store_laws (st : DbTokenStore.t) (p : TokenData)
    (now0 : nat) (rnd : string) :
  let token := fst (DbTokenStore.write_token now0 rnd p st) in
  let st1 := snd (DbTokenStore.write_token now0 rnd p st) in
  (∀ later,
      expired later (expiry_from now0 (DbTokenStore.expire_seconds st)) = false →
      DbTokenStore.read_token later token st1 = Some p)
  ∧ (∀ later,
       DbTokenStore.read_token later token
         (snd (DbTokenStore.destroy_token token st1)) = None)
  ∧ fst (DbTokenStore.destroy_token token st1) = Return tt
  ∧ (∀ other,
       DbTokenStore.rows st !! other = None →
       DbTokenStore.destroy_token other st = (Return tt, st)).
Proof.
  simpl. repeat split.
  - intros later Hlive. unfold DbTokenStore.read_token. simpl.
    rewrite lookup_insert_eq. simpl. by rewrite Hlive.
  - intros later. unfold DbTokenStore.read_token. simpl.
    by rewrite lookup_delete_eq.
  - intros other Hfresh. unfold DbTokenStore.destroy_token.
    rewrite (delete_id _ _ Hfresh). by destruct st.
Qed.

Section JwtLaws.
Variable jwt_encode : string -> JwtTokenStore.Claims -> string.
Variable jwt_decode : string -> string -> option JwtTokenStore.Claims.

(** C7. For the signed-stateless store, [destroy_token] fails on every
    token string with [NotImplementedError], the unsupported-operation
    signal: an exception, not a returned value, so it differs from any
    result that reports a missing token, such as the successful no-op of
    the database-backed store. And with a signing library that decodes
    what it encoded, reading the token that [write_token] returned
    gives the payload back, at any instant before its expiry. *)
Theorem jwt_token_store_laws (st : JwtTokenStore.t) (p : TokenData)
    (now0 : nat) (rnd : string) :
  (∀ key claims, jwt_decode key (jwt_encode key claims) = Some claims) →
  (∀ token st', JwtTokenStore.destroy_token token st'
                = (Raise NotImplementedError, st'))
  ∧ (∀ token st' v, fst (JwtTokenStore.destroy_token token st') ≠ Return v)
  ∧ (∀ token st' dbst,
       fst (JwtTokenStore.destroy_token token st')
       ≠ fst (DbTokenStore.destroy_token token dbst))
  ∧ (∀ later,
       expired later (expiry_from now0 (JwtTokenStore.expire_seconds st)) = false →
       JwtTokenStore.read_token jwt_decode later
         (fst (JwtTokenStore.write_token jwt_encode now0 rnd p st))
         (snd (JwtTokenStore.write_token jwt_encode now0 rnd p st)) = Some p).
Proof.
  intros Hcodec. repeat split; try done.
  intros later Hlive. unfold JwtTokenStore.read_token. simpl.
  rewrite Hcodec. simpl. by rewrite Hlive.
Qed.

End JwtLaws.

(** ** The properties at the sample data *)

(** C2. With no row for the username, [authenticate_user] does not
    return the absent result: it raises [AttributeError], because line
    92 reads [user.password] before line 93 tests [user]. *)
Theorem authenticate_user_unknown_username :
  find (fun u => String.eqb (username u) "mallory") (users sample_db) = None
  ∧ fst (authenticate_user sample_auth "mallory" (PlainStr "guess")
           (sample_state anonymous_scope))
    = Raise AttributeError.
Proof. split; [reflexivity |]. by apply authenticate_user_no_row. Qed.

(** A wrong password for a registered username gives the absent result. *)
Example authenticate_user_wrong_password :
  fst (authenticate_user sample_auth "alice" (PlainStr "guess")
         (sample_state anonymous_scope))
  = Return None.
Proof. reflexivity. Qed.

(** The right password gives the identity. *)
Example authenticate_user_right_password :
  fst (authenticate_user sample_auth "alice" (SecretStr "wonderland")
         (sample_state anonymous_scope))
  = Return (Some alice).
Proof. reflexivity. Qed.

(** [alice], who has the role [admin], presents her token to a guard
    that asks for [admin] and passes; [bob], who has the role [vip],
    does not. *)
Lemma has_requires_decision_witness :
  let a := {| roles := KStr "admin"; groups := KNone; permissions := KNone;
              status_code := 403; redirect := None; response := None |} in
  let conn := sample_request (Some "Bearer t-alice") in
  (fst (resolved_user sample_auth conn (sample_state ∅)) = Return (SUser alice)
   ∧ fst (has_requires sample_auth a conn (sample_state ∅)) = Return true)
  ∧ (fst (resolved_user sample_auth (sample_request None) (sample_state bob_scope))
     = Return (SUser bob)
     ∧ fst (has_requires sample_auth a (sample_request None)
              (sample_state bob_scope)) = Return false).
Proof.
  intros a conn.
  assert (Halice : fst (resolved_user sample_auth conn (sample_state ∅))
                   = Return (SUser alice)) by (vm_compute; reflexivity).
  assert (Hbob : fst (resolved_user sample_auth (sample_request None)
                        (sample_state bob_scope))
                 = Return (SUser bob)) by (vm_compute; reflexivity).
  split; (split; [assumption |]).
  - destruct (has_requires_decision sample_auth a conn (sample_state ∅) alice
                Halice) as (b & Hb & Hiff).
    rewrite Hb. f_equal. apply Hiff. split; [| split; by left].
    right. exists "admin". split; [constructor |].
    cbn. by apply elem_of_singleton_2.
  - destruct (has_requires_decision sample_auth a (sample_request None)
                (sample_state bob_scope) bob Hbob) as (b & Hb & Hiff).
    rewrite Hb. f_equal. destruct b; [| reflexivity]. exfalso.
    destruct (proj1 Hiff eq_refl) as [[Hnil | (k & Hk & Hin)] _];
      [discriminate Hnil |].
    cbn in Hk, Hin. apply list_elem_of_singleton in Hk as ->.
    apply elem_of_singleton in Hin. discriminate Hin.
Defined.

(** The same connection, and an anonymous one, at a guard without
    requirements. *)
Lemma has_requires_unconstrained_witness :
  (required (roles requires_defaults) = []
   ∧ required (groups requires_defaults) = []
   ∧ required (permissions requires_defaults) = [])
  ∧ (fst (resolved_user sample_auth (sample_request (Some "Bearer t-alice"))
            (sample_state ∅)) = Return (SUser alice)
     ∧ fst (has_requires sample_auth requires_defaults
              (sample_request (Some "Bearer t-alice")) (sample_state ∅))
       = Return true)
  ∧ (fst (resolved_user sample_auth (sample_request None) (sample_state ∅))
       = Return SNone
     ∧ fst (has_requires sample_auth requires_defaults (sample_request None)
              (sample_state ∅))
       = Return false).
Proof.
  split; [repeat split |]. split.
  - split; [vm_compute; reflexivity |].
    apply (proj1 (has_requires_unconstrained sample_auth requires_defaults
                    (sample_request (Some "Bearer t-alice")) (sample_state ∅)
                    eq_refl eq_refl eq_refl) alice).
    vm_compute; reflexivity.
  - split; [vm_compute; reflexivity |].
    apply (proj2 (has_requires_unconstrained sample_auth requires_defaults
                    (sample_request None) (sample_state ∅)
                    eq_refl eq_refl eq_refl)).
    vm_compute; reflexivity.
Defined.

(** An anonymous request at a gate with a redirect target and a
    substitute response configured: the redirect wins. *)
Lemma depend_on_failure_witness :
  let a := {| roles := KSeq ["admin"]; groups := KNone; permissions := KNone;
              status_code := 401; redirect := Some "login";
              response := Some (VBool false) |} in
  fst (has_requires sample_auth a (sample_request None) (sample_state ∅))
    = Return false
  ∧ fst (depend sample_auth a (sample_request None) (sample_state ∅))
    = Return (VRedirectResponse "/login" 303).
Proof.
  intros a. split; [vm_compute; reflexivity |].
  apply (depend_on_failure sample_auth a (sample_request None) (sample_state ∅)).
  vm_compute; reflexivity.
Defined.

(** A token written at instant 0 with a lifetime of 60 is read back at
    instant 59. *)
Lemma db_token_store_laws_witness :
  let st := {| DbTokenStore.expire_seconds := Some 60%nat;
               DbTokenStore.rows := ∅ |} in
  let p := {| td_id := 1; td_username := "test" |} in
  expired 59 (expiry_from 0 (DbTokenStore.expire_seconds st)) = false
  ∧ DbTokenStore.rows st !! "never" = None
  ∧ DbTokenStore.read_token 59
      (fst (DbTokenStore.write_token 0 "t0" p st))
      (snd (DbTokenStore.write_token 0 "t0" p st)) = Some p
  ∧ DbTokenStore.destroy_token "never" st = (Return tt, st).
Proof.
  intros st p.
  pose proof (db_token_store_laws st p 0 "t0") as (Hread & _ & _ & Hnever).
  split; [reflexivity |]. split; [reflexivity |]. split.
  - apply Hread. reflexivity.
  - apply Hnever. reflexivity.
Defined.

(** The signed-stateless store over the tagging codec. *)
Lemma jwt_token_store_laws_witness :
  let st := {| JwtTokenStore.secret_key := "09d25e094faa";
               JwtTokenStore.expire_seconds := Some 60%nat |} in
  let p := {| td_id := 1; td_username := "test" |} in
  (∀ key claims, TaggedCodec.decode key (TaggedCodec.encode key claims) = Some claims)
  ∧ expired 59 (expiry_from 0 (JwtTokenStore.expire_seconds st)) = false
  ∧ JwtTokenStore.destroy_token "t0" st = (Raise NotImplementedError, st)
  ∧ JwtTokenStore.read_token TaggedCodec.decode 59
      (fst (JwtTokenStore.write_token TaggedCodec.encode 0 "" p st))
      (snd (JwtTokenStore.write_token TaggedCodec.encode 0 "" p st)) = Some p.
Proof.
  intros st p.
  pose proof (jwt_token_store_laws TaggedCodec.encode TaggedCodec.decode
                st p 0 "" tagged_decode_encode)
    as (Hdestroy & _ & _ & Hread).
  split; [exact tagged_decode_encode |].
  split; [reflexivity |]. split.
  - apply Hdestroy.
  - apply Hread. reflexivity.
Defined.

(** A header in capitals beats the cookie; without the header the
    cookie that login wrote is read back. *)
Lemma get_user_token_sources_witness :
  let with_header :=
    {| headers := {[ "Authorization" := "BEARER abc" ]};
       cookies := {[ "Authorization" := "bearer xyz" ]};
       url_for := fun name => name |} in
  let cookie_only :=
    {| headers := ∅;
       cookies := {[ "Authorization" := "bearer xyz" ]};
       url_for := fun name => name |} in
  (headers with_header !! "Authorization" = Some "BEARER abc"
   ∧ "BEARER abc" ≠ ""
   ∧ get_user_token with_header = Some "abc")
  ∧ (headers cookie_only !! "Authorization" = None
     ∧ cookies cookie_only !! "Authorization" = Some "bearer xyz"
     ∧ "bearer xyz" ≠ ""
     ∧ get_user_token cookie_only = Some "xyz").
Proof.
  intros with_header cookie_only. split.
  - pose proof (get_user_token_sources with_header) as (Hh & _).
    split; [reflexivity |]. split; [discriminate |].
    rewrite (Hh "BEARER abc"); [reflexivity | reflexivity | discriminate].
  - pose proof (get_user_token_sources cookie_only) as (_ & Hc & _).
    split; [reflexivity |]. split; [reflexivity |]. split; [discriminate |].
    rewrite (Hc "bearer xyz");
      [reflexivity | by left | reflexivity | discriminate].
Defined.

(** [alice]'s token on an unresolved connection: the first call
    resolves her and caches the pair, the second answers from the
    scope. *)
Lemma authenticate_idempotent_witness :
  let request := sample_request (Some "Bearer t-alice") in
  truthy_val (default SNone (scope (sample_state ∅) !! "auth")) = false
  ∧ ∃ s1,
      authenticate sample_auth request (sample_state ∅)
        = (Return (SAuth sample_auth, SUser alice), s1)
      ∧ scope s1 !! "auth" = Some (SAuth sample_auth)
      ∧ scope s1 !! "user" = Some (SUser alice)
      ∧ authenticate sample_auth request s1
        = (Return (SAuth sample_auth, SUser alice), s1)
      ∧ trace (snd (authenticate sample_auth request s1)) = trace s1.
Proof.
  intros request. split; [reflexivity |].
  destruct (authenticate_idempotent sample_auth request (sample_state ∅))
    as (a & u & s1 & Hrun & Ha & _ & Hfresh & _ & Hagain & Htrace).
  destruct (Hfresh eq_refl) as [-> Hu].
  assert (Halice : u = SUser alice).
  { assert (Hfst : fst (authenticate sample_auth request (sample_state ∅))
                   = Return (SAuth sample_auth, SUser alice))
      by (vm_compute; reflexivity).
    rewrite Hrun in Hfst. simpl in Hfst. by injection Hfst as ->. }
  subst u. exists s1. by repeat split.
Defined.

(** C9, as the claim states it, fails on a request that already carries
    an identity: the credentials are invalid, and the login handler
    returns [status = 0] with [code = 1]. *)
Lemma login_handle_invalid_credentials_counterexample :
  let data0 := {| login_username := "alice"; login_password := PlainStr "guess" |} in
  fst (authenticate_user sample_auth (login_username data0) (login_password data0)
         (sample_state alice_scope)) = Return None
  ∧ ∃ out,
      fst (login_handle (sample_request None) data0 (sample_state alice_scope))
        = Return out
      ∧ status out ≠ -1
      ∧ status out = 0 ∧ code out = Some 1.
Proof.
  intros data0. split; [reflexivity |].
  eexists. split; [vm_compute; reflexivity |]. by split.
Defined.

(** An anonymous request: a wrong password for [alice], the right
    password for the disabled [bob], and registrations that reuse a
    username or an email. *)
Lemma handlers_rejection_status_witness :
  let s := sample_state anonymous_scope in
  let r := sample_request None in
  scope s !! "auth" = Some (SAuth sample_auth)
  ∧ scope s !! "user" = Some SNone
  ∧ (∃ out, fst (login_handle r {| login_username := "alice";
                                   login_password := PlainStr "guess" |} s)
            = Return out ∧ status out = -1)
  ∧ (∃ out, fst (login_handle r {| login_username := "bob";
                                   login_password := PlainStr "builder" |} s)
            = Return out ∧ status out = -2)
  ∧ (∃ out, fst (reg_handle sample_model autoincrement r
                   {| reg_username := "alice"; reg_password := PlainStr "pw";
                      reg_email := "new@example.org" |} s)
            = Return out ∧ status out = -1)
  ∧ (∃ out, fst (reg_handle sample_model autoincrement r
                   {| reg_username := "carol"; reg_password := PlainStr "pw";
                      reg_email := "bob@example.org" |} s)
            = Return out ∧ status out = -2).
Proof.
  intros s r.
  pose proof (handlers_rejection_status sample_model autoincrement r s sample_auth
                eq_refl) as (Hlogin & Hreg).
  split; [reflexivity |]. split; [reflexivity |]. split; [| split; [| split]].
  - apply (Hlogin eq_refl _ alice); reflexivity.
  - apply (Hlogin eq_refl _ bob); reflexivity.
  - apply Hreg. by exists alice.
  - apply Hreg; [reflexivity | by exists bob].
Defined.

(** [alice] is already logged in and submits somebody else's name. *)
Lemma login_handle_already_authenticated_witness :
  let data0 := {| login_username := "bob"; login_password := PlainStr "guess" |} in
  scope (sample_state alice_scope) !! "user" = Some (SUser alice)
  ∧ ∃ out,
      login_handle (sample_request None) data0 (sample_state alice_scope)
        = (Return out, sample_state alice_scope)
      ∧ code out = Some 1
      ∧ data out = Some (parse_obj alice)
      ∧ trace (snd (login_handle (sample_request None) data0
                      (sample_state alice_scope))) = []
      ∧ store (snd (login_handle (sample_request None) data0
                      (sample_state alice_scope))) = sample_store.
Proof.
  intros data0. split; [reflexivity |].
  apply (login_handle_already_authenticated (sample_request None) data0
           (sample_state alice_scope) alice).
  reflexivity.
Defined.

(** * Further properties of the code *)

(** ** The resolver on a connection that has not been resolved *)

Section ResolverFresh.
Context {S : Type} `{TokenStore S}.

(** X1. On a connection whose scope holds no truthy ["auth"], the
    resolver returns its own [Auth] and the row of the user table whose
    username the token's payload names: the identity is fetched from the
    table, never taken from the token. It is anonymous when no token is
    presented, when the store does not know the token and when no row has
    that username. It caches the pair in the scope and changes neither
    the table nor the token store. *)
Theorem authenticate_fresh (self : Auth) (request : Request) (s : State S) :
  truthy_val (default SNone (scope s !! "auth")) = false →
  let payload := presented request ≫= (λ token, read_token (now s) token (store s)) in
  let row := payload ≫= (λ td, find (λ u, String.eqb (username u) (td_username td))
                                    (users (db s))) in
  ∃ s1,
    authenticate self request s = (Return (SAuth self, of_optional row), s1)
    ∧ scope s1 = <["user" := of_optional row]> (<["auth" := SAuth self]> (scope s))
    ∧ db s1 = db s ∧ store s1 = store s.
Proof.
  intros Hfresh. unfold presented, authenticate. run. rewrite Hfresh.
  destruct (get_user_token request) as [token |]; simpl.
  - destruct (PyStr.truthy token); simpl.
    + unfold store_read, get_user_by_username, get_user_by_whereclause. run.
      destruct (read_token (now s) token (store s)) as [td |]; simpl; lookups.
      * eexists. split; [reflexivity |]. simpl.
        by rewrite insert_insert_eq.
      * eexists. split; [reflexivity |]. done.
    + eexists. split; [reflexivity |]. done.
  - eexists. split; [reflexivity |]. done.
Qed.

(** X2. What the resolver costs on such a connection: no input or
    output at all when no token is presented; one token-store read when
    the store does not know the token; one store read followed by one
    look-up in the user table when it does. *)
Theorem authenticate_fresh_trace (self : Auth) (request : Request) (s : State S) :
  truthy_val (default SNone (scope s !! "auth")) = false →
  trace (snd (authenticate self request s))
  = match presented request with
    | None => trace s
    | Some token =>
        match read_token (now s) token (store s) with
        | None => TokenRead token :: trace s
        | Some _ => UserSelect :: TokenRead token :: trace s
        end
    end.
Proof.
  intros Hfresh. unfold presented, authenticate. run. rewrite Hfresh.
  destruct (get_user_token request) as [token |]; simpl; [| done].
  destruct (PyStr.truthy token); simpl; [| done].
  unfold store_read, get_user_by_username, get_user_by_whereclause. run.
  destruct (read_token (now s) token (store s)) as [td |]; simpl; lookups; done.
Qed.

End ResolverFresh.

(** ** Token extraction, any capitalisation *)

Lemma lower_keeps_space (s : string) :
  " "%char ∈ list_ascii_of_string s →
  " "%char ∈ list_ascii_of_string (PyStr.lower s).
Proof.
  induction s as [| c s IH]; simpl; [done |].
  intros [<- | Hin]%elem_of_cons.
  - left.
  - right. by apply IH.
Qed.

(** X3. A value that is a scheme, one space and a token yields exactly
    the token, further spaces included, whenever the scheme is [bearer]
    in any capitalisation; it does so from the header, whatever the
    cookie holds. *)
Theorem get_user_token_any_case (request : Request) (scheme token : string) :
  PyStr.lower scheme = "bearer" →
  headers request !! "Authorization" = Some (scheme ++ " " ++ token) →
  get_user_token request = Some token.
Proof.
  intros Hlower Hheader.
  assert (Hns : ∀ c, c ∈ list_ascii_of_string scheme → c ≠ " "%char).
  { intros c Hc ->. apply lower_keeps_space in Hc. rewrite Hlower in Hc.
    simpl in Hc. rewrite !elem_of_cons, elem_of_nil in Hc.
    by repeat (destruct Hc as [Hc | Hc]; [discriminate Hc |]). }
  assert (Hv : scheme ++ " " ++ token ≠ "").
  { destruct scheme; [discriminate Hlower | discriminate]. }
  rewrite (get_user_token_of_value request (scheme ++ " " ++ token) Hv).
  - unfold scheme_of, param_of, get_authorization_scheme_param.
    rewrite (truthy_nonempty _ Hv), partition_space_scheme by done. simpl.
    by rewrite Hlower.
  - rewrite Hheader. unfold PyStr.or_else. simpl.
    by rewrite (truthy_nonempty _ Hv).
Qed.

Lemma get_user_token_any_case_witness :
  let request := {| headers := {[ "Authorization" := "BeArEr a b  c" ]};
                    cookies := {[ "Authorization" := "bearer other" ]};
                    url_for := fun name => name |} in
  PyStr.lower "BeArEr" = "bearer"
  ∧ headers request !! "Authorization" = Some ("BeArEr" ++ " " ++ "a b  c")
  ∧ get_user_token request = Some "a b  c".
Proof.
  intros request. split; [reflexivity |]. split; [reflexivity |].
  apply (get_user_token_any_case request "BeArEr" "a b  c"); reflexivity.
Defined.

(** ** Credentials and the login flow *)

Section LoginFlow.
Context {S : Type} `{TokenStore S}.

(** X4. An identity that [authenticate_user] returns is a row of the
    user table with the submitted username whose stored hash verifies
    the submitted password; the call changes neither the scope, the
    table nor the token store. *)
Theorem authenticate_user_sound (self : Auth) (name : string) (pass : Password)
    (s : State S) (u : User) :
  fst (authenticate_user self name pass s) = Return (Some u) →
  u ∈ users (db s)
  ∧ username u = name
  ∧ verify (pwd_context self) (secret_value pass) (secret_value (password u)) = true
  ∧ scope (snd (authenticate_user self name pass s)) = scope s
  ∧ db (snd (authenticate_user self name pass s)) = db s
  ∧ store (snd (authenticate_user self name pass s)) = store s.
Proof.
  unfold authenticate_user, get_user_by_username, get_user_by_whereclause. run.
  destruct (find _ (users (db s))) as [row |] eqn:Hfind; simpl; [| done].
  destruct (verify _ _ _) eqn:Hverify; simpl; [| done].
  intros [= ->]. apply find_some in Hfind as [Hin Hname].
  repeat split; try done.
  - by apply list_elem_of_In.
  - by apply String.eqb_eq.
Qed.

(** A successful login, run. *)
Lemma login_handle_run (request : Request) (data0 : LoginIn)
    (s : State S) (auth : Auth) (u : User) :
  scope s !! "auth" = Some (SAuth auth) →
  scope s !! "user" = Some SNone →
  find (fun u => String.eqb (username u) (login_username data0)) (users (db s))
    = Some u →
  verify (pwd_context auth) (secret_value (login_password data0))
         (secret_value (password u)) = true →
  is_active u = true →
  login_handle request data0 s
  = (Return {| status := 0; code := Some 0; msg := None;
               data := Some {| identity := u;
                               access_token :=
                                 Some (fst (write_token (now s) (hd "" (entropy s))
                                              (user_dict u) (store s))) |} |},
     {| scope := scope s; db := db s;
        store := snd (write_token (now s) (hd "" (entropy s)) (user_dict u) (store s));
        now := now s; entropy := tl (entropy s);
        trace := TokenWrite (user_dict u) :: PasswordVerify :: UserSelect :: trace s |}).
Proof.
  intros Ha Hu Hfind Hverify Hactive. unfold login_handle. run.
  rewrite Hu. simpl. rewrite Ha. simpl.
  unfold authenticate_user, get_user_by_username, get_user_by_whereclause. run.
  rewrite Hfind. simpl. rewrite Hverify. simpl. rewrite Hactive. simpl.
  rewrite Ha. simpl. unfold store_write. run.
  by destruct (write_token (now s) (hd "" (entropy s)) (user_dict u) (store s))
    as [token st'].
Qed.

(** X5. A successful login: on a request without an identity, for an
    active identity and a password that verifies, the handler returns
    [status = 0] and [code = 0] with the identity and the token the store
    issued for the identity's payload. It looks the user up, verifies
    the password and writes one token, in this order, and touches neither
    the scope nor the user table. *)
Theorem login_handle_issues_token (request : Request) (data0 : LoginIn)
    (s : State S) (auth : Auth) (u : User) :
  scope s !! "auth" = Some (SAuth auth) →
  scope s !! "user" = Some SNone →
  find (fun u => String.eqb (username u) (login_username data0)) (users (db s))
    = Some u →
  verify (pwd_context auth) (secret_value (login_password data0))
         (secret_value (password u)) = true →
  is_active u = true →
  let issued := write_token (now s) (hd "" (entropy s)) (user_dict u) (store s) in
  ∃ out s1,
    login_handle request data0 s = (Return out, s1)
    ∧ status out = 0 ∧ code out = Some 0
    ∧ data out = Some {| identity := u; access_token := Some (fst issued) |}
    ∧ store s1 = snd issued
    ∧ trace s1 = TokenWrite (user_dict u) :: PasswordVerify :: UserSelect :: trace s
    ∧ scope s1 = scope s ∧ db s1 = db s.
Proof.
  intros Ha Hu Hfind Hverify Hactive issued. subst issued.
  rewrite (login_handle_run request data0 s auth u Ha Hu Hfind Hverify Hactive).
  eexists _, _. split; [reflexivity |]. done.
Qed.

(** X6. A login that does not end in [code = 0], whether it is
    rejected, answers an identity that is already there or raises,
    issues nothing and changes nothing but the trace: the token store,
    the random source, the scope and the user table are as before. *)
Theorem login_handle_rejection_writes_nothing (request : Request) (data0 : LoginIn)
    (s : State S) :
  (∀ out, fst (login_handle request data0 s) = Return out → code out ≠ Some 0) →
  store (snd (login_handle request data0 s)) = store s
  ∧ entropy (snd (login_handle request data0 s)) = entropy s
  ∧ scope (snd (login_handle request data0 s)) = scope s
  ∧ db (snd (login_handle request data0 s)) = db s.
Proof.
  unfold login_handle. run.
  destruct (scope s !! "user") as [request_user |]; simpl; [| done].
  destruct request_user as [| a | u]; simpl; try done.
  destruct (scope s !! "auth") as [request_auth |] eqn:Ha; simpl; [| done].
  destruct request_auth as [| auth | u]; simpl; try done.
  unfold authenticate_user, get_user_by_username, get_user_by_whereclause. run.
  destruct (find _ (users (db s))) as [u |]; simpl; [| done].
  destruct (verify _ _ _); simpl; [| done].
  destruct (is_active u); simpl; [| done].
  rewrite Ha. simpl. unfold store_write. run.
  destruct (write_token (now s) (hd "" (entropy s)) (user_dict u) (store s))
    as [token st'].
  simpl. intros Hcode. by destruct (Hcode _ eq_refl).
Qed.

(** X7. [route_submit] never raises on what the login handler or the
    registration handler returned, and it sets the [Authorization]
    cookie, to [bearer ] followed by the token, exactly when the result
    carries an access token. *)
Theorem route_submit_after_handle (model : UserModel) (execute : Storage)
    (request : Request) (s : State S) :
  (∀ data0 out,
      fst (login_handle request data0 s) = Return out →
      route_submit out
      = Return ((λ token, ("Authorization", "bearer " ++ token))
                  <$> (data out ≫= access_token)))
  ∧ (∀ data0 out,
       fst (reg_handle model execute request data0 s) = Return out →
       route_submit out
       = Return ((λ token, ("Authorization", "bearer " ++ token))
                   <$> (data out ≫= access_token))).
Proof.
  split; intros data0 out.
  - unfold login_handle. run.
    destruct (scope s !! "user") as [request_user |]; simpl; [| done].
    destruct request_user as [| a | u]; simpl; try done;
      [| by intros [= <-]].
    destruct (scope s !! "auth") as [request_auth |] eqn:Ha; simpl; [| done].
    destruct request_auth as [| auth | u]; simpl; try done.
    unfold authenticate_user, get_user_by_username, get_user_by_whereclause. run.
    destruct (find _ (users (db s))) as [u |]; simpl; [| done].
    destruct (verify _ _ _); simpl; [| by intros [= <-]].
    destruct (is_active u); simpl; [| by intros [= <-]].
    rewrite Ha. simpl. unfold store_write. run.
    destruct (write_token (now s) (hd "" (entropy s)) (user_dict u) (store s))
      as [token st'].
    simpl. by intros [= <-].
  - unfold reg_handle, get_user_by_username, get_user_by_whereclause. run.
    destruct (scope s !! "auth") as [request_auth |] eqn:Ha; simpl; [| done].
    destruct request_auth as [| auth | u]; simpl; try done.
    destruct (find _ (users (db s))) as [u |]; simpl; [by intros [= <-] |].
    rewrite Ha. simpl.
    destruct (find _ (users (db s))) as [u |]; simpl; [by intros [= <-] |].
    rewrite Ha. simpl.
    destruct (execute (db s) _) as [| rowcount rowid]; simpl; [done |].
    destruct (Z.eqb rowcount 0); simpl; rewrite Ha; simpl;
      unfold store_write; run;
      match goal with
      | |- context [write_token ?n ?r ?p ?st] =>
          destruct (write_token n r p st) as [token st']
      end;
      simpl; by intros [= <-].
Qed.

End LoginFlow.

(** ** From login to the next request *)

(** X8. With the database-backed store, a successful login and the
    next request compose: a request that carries no [Authorization]
    header and the cookie that [route_submit] set resolves, on a fresh
    scope, to the identity that logged in. The token must be non-empty
    and must not expire at the instant it is issued. *)
Theorem login_then_resolve (request : Request) (data0 : LoginIn)
    (s : State DbTokenStore.t) (auth : Auth) (u : User) :
  scope s !! "auth" = Some (SAuth auth) →
  scope s !! "user" = Some SNone →
  find (fun u => String.eqb (username u) (login_username data0)) (users (db s))
    = Some u →
  verify (pwd_context auth) (secret_value (login_password data0))
         (secret_value (password u)) = true →
  is_active u = true →
  hd "" (entropy s) ≠ "" →
  expired (now s) (expiry_from (now s) (DbTokenStore.expire_seconds (store s)))
    = false →
  ∃ out name value,
    fst (login_handle request data0 s) = Return out
    ∧ route_submit out = Return (Some (name, value))
    ∧ ∀ next : Request,
        headers next !! "Authorization" = None →
        cookies next !! name = Some value →
        fst (authenticate auth next
               (with_scope (λ _, ∅) (snd (login_handle request data0 s))))
        = Return (SAuth auth, SUser u).
Proof.
  intros Ha Hu Hfind Hverify Hactive Hrnd Hlive.
  unfold login_handle. run. rewrite Hu. simpl. rewrite Ha. simpl.
  unfold authenticate_user, get_user_by_username, get_user_by_whereclause. run.
  rewrite Hfind. simpl. rewrite Hverify. simpl. rewrite Hactive. simpl.
  rewrite Ha. simpl. unfold store_write. run.
  eexists _, _, _. split; [reflexivity |]. split; [reflexivity |].
  intros next Hheader Hcookie.
  assert (Htoken : get_user_token next = Some (hd "" (entropy s))).
  { rewrite (get_user_token_of_value next ("bearer " ++ hd "" (entropy s)));
      [reflexivity | discriminate |].
    by rewrite Hheader, Hcookie. }
  unfold authenticate. run. rewrite lookup_empty. simpl.
  rewrite Htoken. simpl. rewrite (truthy_nonempty _ Hrnd). simpl.
  unfold store_read, get_user_by_username, get_user_by_whereclause. run.
  unfold DbTokenStore.read_token. simpl. rewrite lookup_insert_eq. simpl.
  rewrite Hlive. simpl.
  apply find_some in Hfind as Hname. destruct Hname as [_ Hname].
  apply String.eqb_eq in Hname. rewrite Hname, Hfind. simpl.
  lookups. done.
Qed.

(** ** Registration *)

Lemma find_snoc {A} (f : A → bool) (l : list A) (x : A) :
  find f (l ++ [x])%list
  = match find f l with
    | Some y => Some y
    | None => if f x then Some x else None
    end.
Proof.
  induction l as [| y l IH]; simpl; [done |]. by destruct (f y).
Qed.

Lemma find_none_not_elem {A} (key : A → string) (l : list A) (k : string) :
  find (λ x, String.eqb (key x) k) l = None → k ∉ key <$> l.
Proof.
  intros Hfind [x [-> Hin]]%list_elem_of_fmap.
  apply list_elem_of_In in Hin.
  pose proof (find_none _ _ Hfind x Hin) as Hne. simpl in Hne.
  by rewrite String.eqb_refl in Hne.
Qed.

Section Registration.
Context {S : Type} `{TokenStore S}.

(** A registration with a free username and a free email whose insert
    went through, run. *)
Lemma reg_handle_run (model : UserModel) (execute : Storage)
    (request : Request) (data0 : RegIn) (s : State S) (auth : Auth) (rowid : Z) :
  scope s !! "auth" = Some (SAuth auth) →
  find (fun u => String.eqb (username u) (reg_username data0)) (users (db s)) = None →
  find (fun u => String.eqb (email u) (reg_email data0)) (users (db s)) = None →
  inserted execute model auth data0 (db s) rowid →
  ∃ out s1,
    reg_handle model execute request data0 s = (Return out, s1)
    ∧ status out = 0 ∧ code out = Some 0
    ∧ (data out ≫= access_token)
      = Some (fst (write_token (now s) (hd "" (entropy s))
                     {| td_id := rowid; td_username := reg_username data0 |}
                     (store s)))
    ∧ users (db s1) = (users (db s) ++ [registered_row model auth data0 rowid])%list
    ∧ role_keys (db s1) = role_keys (db s)
    ∧ group_keys (db s1) = group_keys (db s)
    ∧ permission_keys (db s1) = permission_keys (db s)
    ∧ scope s1 = scope s.
Proof.
  intros Ha Hname Hemail (rowcount & Hcount & Hexec).
  unfold reg_handle, get_user_by_username, get_user_by_whereclause. run.
  rewrite Ha. simpl. rewrite Hname. simpl. rewrite Ha. simpl.
  rewrite Hemail. simpl. rewrite Ha. simpl. rewrite Hexec. simpl.
  apply Z.eqb_neq in Hcount. rewrite Hcount. simpl.
  rewrite Ha. simpl. unfold store_write. run. unfold user_dict. simpl.
  destruct (write_token (now s) (hd "" (entropy s))
              {| td_id := rowid; td_username := reg_username data0 |}
              (store s)) as [token st'].
  simpl. eexists _, _. split; [reflexivity |]. done.
Qed.

(** When the storage reports no row, nothing is committed. *)
Lemma reg_handle_not_committed (model : UserModel) (execute : Storage)
    (request : Request) (data0 : RegIn) (s : State S) (auth : Auth) (rowid : Z) :
  scope s !! "auth" = Some (SAuth auth) →
  find (fun u => String.eqb (username u) (reg_username data0)) (users (db s)) = None →
  find (fun u => String.eqb (email u) (reg_email data0)) (users (db s)) = None →
  execute (db s) (insert_values model auth data0) = ExecuteResult 0 rowid →
  db (snd (reg_handle model execute request data0 s)) = db s.
Proof.
  intros Ha Hname Hemail Hexec.
  unfold reg_handle, get_user_by_username, get_user_by_whereclause. run.
  rewrite Ha. simpl. rewrite Hname. simpl. rewrite Ha. simpl.
  rewrite Hemail. simpl. rewrite Ha. simpl. rewrite Hexec. simpl.
  rewrite Ha. simpl. unfold store_write. run.
  match goal with
  | |- context [write_token ?n ?r ?p ?st] =>
      destruct (write_token n r p st) as [token st']
  end.
  done.
Qed.


(** X10. Registering twice: after a registration went through, a
    second one with the same username is refused with [status = -1],
    whatever its email and password, and one with another, free username
    and the same email is refused with [status = -2]. *)
Theorem reg_handle_twice (model : UserModel) (execute : Storage)
    (request : Request) (data0 : RegIn) (s : State S) (auth : Auth) (rowid : Z) :
  scope s !! "auth" = Some (SAuth auth) →
  find (fun u => String.eqb (username u) (reg_username data0)) (users (db s)) = None →
  find (fun u => String.eqb (email u) (reg_email data0)) (users (db s)) = None →
  inserted execute model auth data0 (db s) rowid →
  ∀ data1 : RegIn,
    (reg_username data1 = reg_username data0 →
     ∃ out, fst (reg_handle model execute request data1
                   (snd (reg_handle model execute request data0 s)))
            = Return out ∧ status out = -1)
    ∧ (reg_username data1 ≠ reg_username data0 →
       find (fun u => String.eqb (username u) (reg_username data1)) (users (db s))
         = None →
       reg_email data1 = reg_email data0 →
       ∃ out, fst (reg_handle model execute request data1
                     (snd (reg_handle model execute request data0 s)))
              = Return out ∧ status out = -2).
Proof.
  intros Ha Hname Hemail Hins data1.
  destruct (reg_handle_run model execute request data0 s auth rowid
              Ha Hname Hemail Hins)
    as (out & s1 & Hrun & _ & _ & _ & Husers & _ & _ & _ & Hscope).
  rewrite Hrun. simpl.
  assert (Ha1 : scope s1 !! "auth" = Some (SAuth auth)) by by rewrite Hscope.
  destruct (reg_handle_taken model execute request data1 s1 auth Ha1)
    as [Htaken Hmail].
  split.
  - intros Hsame. apply Htaken. rewrite Husers, find_snoc, Hsame, Hname. simpl.
    by rewrite String.eqb_refl.
  - intros Hother Hfree Hsame. apply Hmail.
    + rewrite Husers, find_snoc, Hfree. simpl.
      by apply String.eqb_neq in Hother; rewrite String.eqb_sym, Hother.
    + rewrite Husers, find_snoc, Hsame, Hemail. simpl.
      by rewrite String.eqb_refl.
Qed.

(** X11. Registration keeps usernames and emails unique: if no two
    rows of the user table share a username, and no two share an email,
    the same holds after the handler ran, whatever it answered and
    whatever the storage did. *)
Theorem reg_handle_keeps_unique (model : UserModel) (execute : Storage)
    (request : Request) (data0 : RegIn) (s : State S) :
  NoDup (username <$> users (db s)) →
  NoDup (email <$> users (db s)) →
  NoDup (username <$> users (db (snd (reg_handle model execute request data0 s))))
  ∧ NoDup (email <$> users (db (snd (reg_handle model execute request data0 s)))).
Proof.
  intros Hnames Hemails.
  destruct (scope s !! "auth") as [[| auth | u] |] eqn:Ha;
    try (unfold reg_handle; run; rewrite Ha; done).
  destruct (find (fun u => String.eqb (username u) (reg_username data0))
              (users (db s))) as [u |] eqn:Hname.
  { unfold reg_handle, get_user_by_username, get_user_by_whereclause. run.
    rewrite Ha. simpl. by rewrite Hname. }
  destruct (find (fun u => String.eqb (email u) (reg_email data0))
              (users (db s))) as [u |] eqn:Hemail.
  { unfold reg_handle, get_user_by_username, get_user_by_whereclause. run.
    rewrite Ha. simpl. rewrite Hname. simpl. rewrite Ha. simpl.
    by rewrite Hemail. }
  destruct (execute (db s) (insert_values model auth data0))
    as [| rowcount rowid] eqn:Hexec.
  { unfold reg_handle, get_user_by_username, get_user_by_whereclause. run.
    rewrite Ha. simpl. rewrite Hname. simpl. rewrite Ha. simpl.
    rewrite Hemail. simpl. rewrite Ha. simpl. by rewrite Hexec. }
  destruct (decide (rowcount = 0)) as [-> | Hcount].
  { by rewrite (reg_handle_not_committed model execute request data0 s auth rowid
                    Ha Hname Hemail Hexec). }
  destruct (reg_handle_run model execute request data0 s auth rowid
              Ha Hname Hemail) as (out & s1 & Hrun & _ & _ & _ & Husers & _).
  { by exists rowcount. }
  rewrite Hrun. simpl. rewrite Husers, !fmap_app. simpl.
  split; apply NoDup_app; (split; [done |]); split;
    try apply NoDup_singleton.
  - intros k Hk [-> | []%elem_of_nil]%elem_of_cons.
    by apply (find_none_not_elem username _ _ Hname).
  - intros k Hk [-> | []%elem_of_nil]%elem_of_cons.
    by apply (find_none_not_elem email _ _ Hemail).
Qed.

(** X12. Register, then log in: after a registration whose insert went
    through, and when the password context verifies a password against
    its own hash of it, a login with the credentials just registered, on
    a request without an identity, finds the stored row. It succeeds
    with [status = 0] and [code = 0] and returns that row when the model
    makes new users active, and it is refused with [status = -2] when the
    model makes them inactive. *)
Theorem register_then_login (model : UserModel) (execute : Storage)
    (request : Request) (data0 : RegIn) (s : State S) (auth : Auth) (rowid : Z) :
  scope s !! "auth" = Some (SAuth auth) →
  scope s !! "user" = Some SNone →
  find (fun u => String.eqb (username u) (reg_username data0)) (users (db s)) = None →
  find (fun u => String.eqb (email u) (reg_email data0)) (users (db s)) = None →
  inserted execute model auth data0 (db s) rowid →
  verify (pwd_context auth) (secret_value (reg_password data0))
         (hash (pwd_context auth) (secret_value (reg_password data0))) = true →
  ∃ out,
    fst (login_handle request (login_of data0)
           (snd (reg_handle model execute request data0 s))) = Return out
    ∧ (default_is_active model = true →
       status out = 0 ∧ code out = Some 0
       ∧ identity <$> data out = Some (registered_row model auth data0 rowid))
    ∧ (default_is_active model = false → status out = -2 ∧ data out = None).
Proof.
  intros Ha Hu Hname Hemail Hins Hverify.
  destruct (reg_handle_run model execute request data0 s auth rowid
              Ha Hname Hemail Hins)
    as (out0 & s1 & Hrun & _ & _ & _ & Husers & _ & _ & _ & Hscope).
  rewrite Hrun. simpl.
  assert (Hfind : find (fun u => String.eqb (username u)
                                   (login_username (login_of data0)))
                    (users (db s1)) = Some (registered_row model auth data0 rowid)).
  { rewrite Husers, find_snoc. simpl. rewrite Hname. simpl.
    by rewrite String.eqb_refl. }
  destruct (default_is_active model) eqn:Hactive.
  - rewrite (login_handle_run request (login_of data0) s1 auth
               (registered_row model auth data0 rowid));
      [| by rewrite Hscope | by rewrite Hscope | done | done | done].
    eexists. split; [reflexivity |]. split; [done |]. done.
  - unfold login_handle. run. rewrite Hscope, Hu. simpl.
    rewrite Hscope, Ha. simpl.
    unfold authenticate_user, get_user_by_username, get_user_by_whereclause. run.
    simpl in Hfind. rewrite Hfind. simpl.
    simpl in Hverify. rewrite Hverify. simpl. rewrite Hactive. simpl.
    eexists. split; [reflexivity |]. split; [done |]. done.
Qed.

End Registration.

(** ** The token endpoint *)

Section TokenEndpoint.
Context {S : Type} `{TokenStore S}.

(** X13. The token endpoint on a request without an identity, for a
    registered username and a password that does not verify: it returns
    [status = -1] with no data, sets no cookie, issues no token and leaves
    the request without an identity. *)
Theorem oauth_token_wrong_password (request : Request) (name pass : string)
    (s : State S) (auth : Auth) (u : User) :
  scope s !! "auth" = Some (SAuth auth) →
  default SNone (scope s !! "user") = SNone →
  find (fun u => String.eqb (username u) name) (users (db s)) = Some u →
  verify (pwd_context auth) pass (secret_value (password u)) = false →
  ∃ out s1,
    oauth_token request name pass s = (Return (out, None), s1)
    ∧ status out = -1 ∧ data out = None
    ∧ store s1 = store s ∧ entropy s1 = entropy s
    ∧ scope s1 !! "user" = Some SNone.
Proof.
  intros Ha Hu Hfind Hverify. unfold oauth_token. run. rewrite Hu. simpl.
  rewrite Ha. simpl.
  unfold authenticate_user, get_user_by_username, get_user_by_whereclause. run.
  rewrite Hfind. simpl. rewrite Hverify. simpl. lookups.
  eexists _, _. split; [reflexivity |]. simpl. by lookups.
Qed.

(** X14. The token endpoint does not look at [is_active]: on a request
    without an identity, a registered username with a password that
    verifies gets [status = 0], a token issued for the identity and the
    [Authorization] cookie, whether the identity is active or disabled,
    and the identity is put on the request. *)
Theorem oauth_token_ignores_is_active (request : Request) (name pass : string)
    (s : State S) (auth : Auth) (u : User) :
  scope s !! "auth" = Some (SAuth auth) →
  default SNone (scope s !! "user") = SNone →
  find (fun u => String.eqb (username u) name) (users (db s)) = Some u →
  verify (pwd_context auth) pass (secret_value (password u)) = true →
  let issued := write_token (now s) (hd "" (entropy s)) (user_dict u) (store s) in
  ∃ out s1,
    oauth_token request name pass s
      = (Return (out, Some ("Authorization", "bearer " ++ fst issued)), s1)
    ∧ status out = 0
    ∧ data out = Some {| identity := u; access_token := Some (fst issued) |}
    ∧ store s1 = snd issued
    ∧ scope s1 !! "user" = Some (SUser u).
Proof.
  intros Ha Hu Hfind Hverify issued. subst issued.
  unfold oauth_token. run. rewrite Hu. simpl. rewrite Ha. simpl.
  unfold authenticate_user, get_user_by_username, get_user_by_whereclause. run.
  rewrite Hfind. simpl. rewrite Hverify. simpl. lookups. rewrite Ha. simpl.
  unfold store_write. run.
  destruct (write_token (now s) (hd "" (entropy s)) (user_dict u) (store s))
    as [token st'].
  simpl. eexists _, _. split; [reflexivity |]. simpl. by lookups.
Qed.

(** X15. The token endpoint on a request that already carries an
    identity issues a token for that identity without looking at the
    submitted username and password: the trace gains one token write and
    neither a look-up in the user table nor a password verification. *)
Theorem oauth_token_already_authenticated (request : Request) (name pass : string)
    (s : State S) (auth : Auth) (u : User) :
  scope s !! "auth" = Some (SAuth auth) →
  scope s !! "user" = Some (SUser u) →
  let issued := write_token (now s) (hd "" (entropy s)) (user_dict u) (store s) in
  ∃ out s1,
    oauth_token request name pass s
      = (Return (out, Some ("Authorization", "bearer " ++ fst issued)), s1)
    ∧ status out = 0
    ∧ data out = Some {| identity := u; access_token := Some (fst issued) |}
    ∧ trace s1 = TokenWrite (user_dict u) :: trace s
    ∧ scope s1 = scope s.
Proof.
  intros Ha Hu issued. subst issued.
  unfold oauth_token. run.
  repeat (first [rewrite Hu | rewrite Ha]; simpl).
  unfold store_write. run.
  destruct (write_token (now s) (hd "" (entropy s)) (user_dict u) (store s))
    as [token st'].
  simpl. eexists _, _. split; [reflexivity |]. done.
Qed.

End TokenEndpoint.

(** ** The guard as a wrapper and under nesting *)

Section Wrappers.
Context {S : Type} `{TokenStore S}.

(** The guard changes the state exactly as the resolver does. *)
Lemma has_requires_state (self : Auth) (a : Requires) (conn : Request) (s : State S) :
  snd (has_requires self a conn s) = snd (authenticate self conn s).
Proof.
  unfold has_requires. run.
  destruct (authenticate self conn s) as [[r | e] s1]; simpl; [| done].
  destruct (scope s1 !! "user") as [[| a0 | u] |]; simpl; try done.
  - by destruct (truthy_keys (groups a) || truthy_keys (roles a)
                 || truthy_keys (permissions a))%bool.
  - unfold dimension, has_group, has_role, has_permission. run.
    destruct (truthy_keys (groups a)); simpl;
      [destruct (any_of (group_keys (db s1) (id u)) _); simpl; [| done] |];
      (destruct (truthy_keys (roles a)); simpl;
       [destruct (any_of (role_keys (db s1) (id u)) _); simpl; [| done] |]);
      (destruct (truthy_keys (permissions a)); simpl;
       [destruct (any_of (permission_keys (db s1) (id u)) _); simpl |]); done.
Qed.

(** X16. Guards on one connection share the resolution: once any guard
    has run on a connection, a further guard, with whatever requirements,
    leaves the whole state as it is; it reads no token and looks no user
    up. And no guard ever changes the user table or the token store. *)
Theorem has_requires_nested (self : Auth) (a1 a2 : Requires) (conn : Request)
    (s : State S) :
  let s1 := snd (has_requires self a1 conn s) in
  snd (has_requires self a2 conn s1) = s1
  ∧ db s1 = db s ∧ store s1 = store s.
Proof.
  simpl. rewrite !has_requires_state.
  destruct (authenticate_returns self conn s)
    as (a & u & s1 & Hrun & Ha & Ht & _ & Hdb & Hstore).
  rewrite Hrun. simpl.
  by rewrite (authenticate_cached self conn s1 a Ha Ht).
Qed.

(** X17. The wrapped handler runs when the guard passes. When the
    guard fails it does not run and the wrapper answers what [depend]
    answers, with one exception: with [response=True] and no redirect,
    [depend] hands [True] back, and the wrapper runs the handler although
    the guard failed. *)
Theorem async_wrapper_runs_func (self : Auth) (a : Requires)
    (func : Request → M (State S) Value) (request : Request) (s : State S) :
  (fst (has_requires self a request s) = Return true →
   async_wrapper self a func request s
   = func request (snd (has_requires self a request s)))
  ∧ (fst (has_requires self a request s) = Return false →
     async_wrapper self a func request s
     = match redirect a, response a with
       | Some name, _ =>
           (Return (VRedirectResponse (url_for request name) 303),
            snd (has_requires self a request s))
       | None, Some (VBool true) =>
           func request (snd (has_requires self a request s))
       | None, Some r => (Return r, snd (has_requires self a request s))
       | None, None =>
           (Raise (HTTPException (status_code a)),
            snd (has_requires self a request s))
       end).
Proof.
  unfold async_wrapper, depend. run.
  destruct (has_requires self a request s) as [r s1]. simpl.
  split; intros ->; simpl; [done |].
  destruct (redirect a) as [name |]; simpl; [done |].
  destruct (response a) as [[[|] | url code | body] |]; done.
Qed.

(** X18. The page guard of the admin application answers with a
    boolean and never with an HTTP error: when the inherited check
    passes and the request has been through the resolver, it is [True]
    exactly for a resolved identity that has the role [admin], and
    [False] for an anonymous request. When the inherited check fails it
    is [False] and the resolver is not run. *)
Theorem has_page_permission_admin
    (super_has_page_permission : Request → M (State S) bool)
    (request : Request) (s s0 : State S) :
  (super_has_page_permission request s = (Return false, s0) →
   has_page_permission super_has_page_permission request s
   = (Return (VBool false), s0))
  ∧ (∀ auth,
       super_has_page_permission request s = (Return true, s0) →
       scope s0 !! "auth" = Some (SAuth auth) →
       (∀ u, fst (resolved_user auth request s0) = Return (SUser u) →
             fst (has_page_permission super_has_page_permission request s)
             = Return (VBool (bool_decide ("admin" ∈ role_keys (db s0) (id u)))))
       ∧ (fst (resolved_user auth request s0) = Return SNone →
          fst (has_page_permission super_has_page_permission request s)
          = Return (VBool false))).
Proof.
  split.
  - intros Hsuper. unfold has_page_permission. run. by rewrite Hsuper.
  - intros auth Hsuper Ha.
    assert (Hrun : has_page_permission super_has_page_permission request s
                   = depend auth
                       {| roles := KStr "admin"; groups := KNone;
                          permissions := KNone; status_code := 403;
                          redirect := None; response := Some (VBool false) |}
                       request s0).
    { unfold has_page_permission. run. rewrite Hsuper. simpl. by rewrite Ha. }
    rewrite Hrun. unfold depend. run. split.
    + intros u Hu.
      pose proof (has_requires_user auth
                    {| roles := KStr "admin"; groups := KNone;
                       permissions := KNone; status_code := 403;
                       redirect := None; response := Some (VBool false) |}
                    request s0 u Hu) as Hguard.
      destruct (has_requires _ _ _ _) as [r s1]. simpl in Hguard. subst r.
      unfold dimension_ok, any_of. simpl.
      by destruct (bool_decide ("admin" ∈ role_keys (db s0) (id u))).
    + intros Hanon.
      pose proof (has_requires_anonymous auth
                    {| roles := KStr "admin"; groups := KNone;
                       permissions := KNone; status_code := 403;
                       redirect := None; response := Some (VBool false) |}
                    request s0 Hanon) as Hguard.
      destruct (has_requires _ _ _ _) as [r s1]. simpl in Hguard. by subst r.
Qed.

End Wrappers.

(** ** The decorator *)

Lemma scan_parameters_none (parameters : list string) (start : nat) :
  scan_parameters parameters start = None →
  ("request" ∉ parameters) ∧ ("websocket" ∉ parameters).
Proof.
  revert start. induction parameters as [| name rest IH]; intros start; simpl.
  - intros _. split; apply not_elem_of_nil.
  - destruct (String.eqb_spec name "request") as [-> | Hr]; simpl; [done |].
    destruct (String.eqb_spec name "websocket") as [-> | Hw]; simpl; [done |].
    intros [Hr' Hw']%IH. split; rewrite not_elem_of_cons; split; congruence.
Qed.

Lemma scan_parameters_some (parameters : list string) (start i : nat) (name : string) :
  scan_parameters parameters start = Some (i, name) →
  ∃ k, i = (start + k)%nat ∧ parameters !! k = Some name
       ∧ (name = "request" ∨ name = "websocket")
       ∧ none_before parameters k.
Proof.
  revert start. induction parameters as [| p rest IH]; intros start; simpl;
    [done |].
  destruct (String.eqb_spec p "request") as [-> | Hr]; simpl.
  { intros [= <- <-]. exists 0%nat.
    split; [lia |]. split; [done |]. split; [by left |].
    intros j m Hj. lia. }
  destruct (String.eqb_spec p "websocket") as [-> | Hw]; simpl.
  { intros [= <- <-]. exists 0%nat.
    split; [lia |]. split; [done |]. split; [by right |].
    intros j m Hj. lia. }
  intros (k & -> & Hk & Hname & Hbefore)%IH.
  exists (Datatypes.S k).
  split; [lia |]. split; [done |]. split; [done |].
  intros [| j] m Hj Hm; simpl in Hm.
  - injection Hm as <-. done.
  - apply (Hbefore j m); [lia | done].
Qed.

(** X19. What the decorator makes of a function: it raises when no
    parameter is named [request] or [websocket]; otherwise the first
    parameter with one of the two names decides. If that is [websocket]
    the function gets the websocket wrapper, coroutine or not; if it is
    [request], the async wrapper for a coroutine function and the sync
    wrapper for any other. The wrapper remembers the position of that
    parameter. *)
Theorem decorator_first_parameter (parameters : list string) (coroutine : bool) :
  match decorator (FuncDef parameters coroutine) with
  | DRaiseException => ("request" ∉ parameters) ∧ ("websocket" ∉ parameters)
  | DWebsocketWrapper i =>
      parameters !! i = Some "websocket" ∧ none_before parameters i
  | DAsyncWrapper i =>
      coroutine = true ∧ parameters !! i = Some "request"
      ∧ none_before parameters i
  | DSyncWrapper i =>
      coroutine = false ∧ parameters !! i = Some "request"
      ∧ none_before parameters i
  | DDepend | DDependOn _ => False
  end.
Proof.
  unfold decorator.
  destruct (scan_parameters parameters 0) as [[i name] |] eqn:Hscan.
  - apply scan_parameters_some in Hscan
      as (k & -> & Hk & [-> | ->] & Hbefore); simpl.
    + by destruct coroutine.
    + done.
  - by apply scan_parameters_none in Hscan.
Qed.

(** X20. How a wrapper finds the request among the arguments of a
    call. A call with keyword arguments only takes it from [request=].
    A positional call takes it from the position the decorator
    remembered, unless [request=] is given too, which wins. And because
    the positional default is computed first, a call with some positional
    arguments, but too few to reach that position, raises [IndexError]
    even when the request is passed as [request=]. *)
Theorem wrapper_request_cases (idx : nat) (args : list PyArg)
    (kwargs : gmap string PyArg) (r : Request) :
  (args = [] → kwargs !! "request" = Some (ArgRequest r) →
   wrapper_request idx args kwargs = GotRequest r)
  ∧ (args = [] → kwargs !! "request" = None →
     wrapper_request idx args kwargs = RaisesAssertionError)
  ∧ (kwargs !! "request" = None → args !! idx = Some (ArgRequest r) →
     wrapper_request idx args kwargs = GotRequest r)
  ∧ (kwargs !! "request" = Some (ArgRequest r) → is_Some (args !! idx) →
     wrapper_request idx args kwargs = GotRequest r)
  ∧ (args ≠ [] → (length args ≤ idx)%nat →
     wrapper_request idx args kwargs = RaisesIndexError).
Proof.
  unfold wrapper_request. repeat split.
  - by intros -> ->.
  - by intros -> ->.
  - intros -> Harg. destruct args as [| a0 args]; [done |]. by rewrite Harg.
  - intros -> [a Harg]. destruct args as [| a0 args]; [done |]. by rewrite Harg.
  - intros Hne Hlen. destruct args as [| a0 args]; [done |].
    by rewrite (lookup_ge_None_2 _ _ Hlen).
Qed.

(** ** The update hook of the user admin *)

Section Hooks.
Context {S : Type} `{TokenStore S}.

(** X21. [on_update_pre] touches the password and nothing else: the
    state and every other field are unchanged, and no field is added or
    dropped. Without a password, or with an empty one, the data is
    returned as it came, even on a request that never met the resolver;
    a non-empty password is replaced by its hash. *)
Theorem on_update_pre_only_password (request : Request)
    (data0 : gmap string string) (s : State S) :
  (PyStr.truthy_opt (data0 !! "password") = false →
   on_update_pre request data0 s = (Return data0, s))
  ∧ (∀ out s1,
       on_update_pre request data0 s = (Return out, s1) →
       s1 = s
       ∧ dom out = dom data0
       ∧ (∀ k, k ≠ "password" → out !! k = data0 !! k)
       ∧ (∀ p, data0 !! "password" = Some p → p ≠ "" →
               ∃ auth, scope s !! "auth" = Some (SAuth auth)
                       ∧ out !! "password" = Some (hash (pwd_context auth) p))).
Proof.
  unfold on_update_pre. split.
  - by intros ->.
  - intros out s1.
    destruct (data0 !! "password") as [p |] eqn:Hp; simpl.
    + destruct (PyStr.truthy p) eqn:Ht.
      * run. destruct (scope s !! "auth") as [[| auth | u] |]; simpl; try done.
        intros [= <- <-]. repeat split.
        -- rewrite dom_insert_L. apply subseteq_union_1_L.
           apply singleton_subseteq_l, elem_of_dom. eauto.
        -- intros k Hk. by rewrite lookup_insert_ne.
        -- intros p' [= <-] _. exists auth. by rewrite lookup_insert_eq.
      * intros [= <- <-]. repeat split; try done.
        intros p' [= <-] Hne. by rewrite (truthy_nonempty _ Hne) in Ht.
    + intros [= <- <-]. repeat split; done.
Qed.

End Hooks.

(** ** The further properties at the sample data *)

(** [alice]'s token on a fresh connection. *)
Lemma authenticate_fresh_witness :
  let request := sample_request (Some "Bearer t-alice") in
  truthy_val (default SNone (scope (sample_state ∅) !! "auth")) = false
  ∧ ∃ s1,
      authenticate sample_auth request (sample_state ∅)
        = (Return (SAuth sample_auth, SUser alice), s1)
      ∧ scope s1 = <["user" := SUser alice]> (<["auth" := SAuth sample_auth]> ∅)
      ∧ db s1 = sample_db ∧ store s1 = sample_store.
Proof.
  intros request. split; [reflexivity |].
  exact (authenticate_fresh sample_auth request (sample_state ∅) eq_refl).
Defined.

(** A token the store does not know costs one store read. *)
Lemma authenticate_fresh_trace_witness :
  let request := sample_request (Some "Bearer t-unknown") in
  truthy_val (default SNone (scope (sample_state ∅) !! "auth")) = false
  ∧ trace (snd (authenticate sample_auth request (sample_state ∅)))
    = [TokenRead "t-unknown"].
Proof.
  intros request. split; [reflexivity |].
  exact (authenticate_fresh_trace sample_auth request (sample_state ∅) eq_refl).
Defined.

Lemma authenticate_user_sound_witness :
  fst (authenticate_user sample_auth "alice" (PlainStr "wonderland")
         (sample_state anonymous_scope)) = Return (Some alice)
  ∧ alice ∈ users sample_db
  ∧ username alice = "alice"
  ∧ verify sample_context "wonderland" (secret_value (password alice)) = true.
Proof.
  split; [reflexivity |].
  pose proof (authenticate_user_sound sample_auth "alice" (PlainStr "wonderland")
                (sample_state anonymous_scope) alice eq_refl)
    as (Hin & Hname & Hverify & _).
  by repeat split.
Defined.

(** [alice] logs in; the store hands out the token [t-next]. *)
Lemma login_handle_issues_token_witness :
  let s := sample_state anonymous_scope in
  let data0 := login_form "alice" "wonderland" in
  (scope s !! "auth" = Some (SAuth sample_auth) ∧ scope s !! "user" = Some SNone
   ∧ find (fun u => String.eqb (username u) (login_username data0)) (users (db s))
     = Some alice
   ∧ is_active alice = true)
  ∧ ∃ out s1,
      login_handle (sample_request None) data0 s = (Return out, s1)
      ∧ status out = 0 ∧ code out = Some 0
      ∧ data out = Some {| identity := alice; access_token := Some "t-next" |}
      ∧ store s1 = snd (DbTokenStore.write_token 0 "t-next" (user_dict alice)
                          sample_store)
      ∧ trace s1 = [TokenWrite (user_dict alice); PasswordVerify; UserSelect]
      ∧ scope s1 = anonymous_scope ∧ db s1 = sample_db.
Proof.
  intros s data0. split; [by repeat split |].
  exact (login_handle_issues_token (sample_request None) data0 s sample_auth alice
           eq_refl eq_refl eq_refl eq_refl eq_refl).
Defined.

(** A wrong password leaves the store as it was. *)
Lemma login_handle_rejection_writes_nothing_witness :
  let s := sample_state anonymous_scope in
  let data0 := login_form "alice" "guess" in
  (∀ out, fst (login_handle (sample_request None) data0 s) = Return out →
          code out ≠ Some 0)
  ∧ store (snd (login_handle (sample_request None) data0 s)) = sample_store
  ∧ entropy (snd (login_handle (sample_request None) data0 s)) = ["t-next"].
Proof.
  intros s data0.
  assert (Hcode : ∀ out, fst (login_handle (sample_request None) data0 s)
                         = Return out → code out ≠ Some 0).
  { intros out Hout. vm_compute in Hout. injection Hout as <-. discriminate. }
  split; [exact Hcode |].
  pose proof (login_handle_rejection_writes_nothing (sample_request None) data0 s
                Hcode) as (Hstore & Hentropy & _).
  by split.
Defined.

(** The cookie after [alice]'s login, and none after a wrong password. *)
Lemma route_submit_after_handle_witness :
  let s := sample_state anonymous_scope in
  (∃ out, fst (login_handle (sample_request None) (login_form "alice" "wonderland") s)
          = Return out
          ∧ route_submit out = Return (Some ("Authorization", "bearer t-next")))
  ∧ (∃ out, fst (login_handle (sample_request None) (login_form "alice" "guess") s)
            = Return out
            ∧ route_submit out = Return None).
Proof.
  intros s.
  pose proof (route_submit_after_handle sample_model autoincrement
                (sample_request None) s) as [Hlogin _].
  split; eexists; (split; [vm_compute; reflexivity |]).
  - etransitivity;
      [apply (Hlogin (login_form "alice" "wonderland")); vm_compute; reflexivity
      | reflexivity].
  - etransitivity;
      [apply (Hlogin (login_form "alice" "guess")); vm_compute; reflexivity
      | reflexivity].
Defined.

(** [alice] logs in and comes back with the cookie. *)
Lemma login_then_resolve_witness :
  let s := sample_state anonymous_scope in
  let data0 := login_form "alice" "wonderland" in
  let next := {| headers := ∅;
                 cookies := {[ "Authorization" := "bearer t-next" ]};
                 url_for := fun name => name |} in
  (hd "" (entropy s) ≠ ""
   ∧ expired (now s) (expiry_from (now s) (DbTokenStore.expire_seconds (store s)))
     = false)
  ∧ fst (authenticate sample_auth next
           (with_scope (λ _, ∅) (snd (login_handle (sample_request None) data0 s))))
    = Return (SAuth sample_auth, SUser alice).
Proof.
  intros s data0 next. split; [by split |].
  destruct (login_then_resolve (sample_request None) data0 s sample_auth alice
              eq_refl eq_refl eq_refl eq_refl eq_refl)
    as (out & name & value & Hout & Hcookie & Hnext); [done | done |].
  apply Hnext; [reflexivity |].
  vm_compute in Hout. injection Hout as <-.
  vm_compute in Hcookie. injection Hcookie as <- <-. reflexivity.
Defined.

(** A proof that the sample storage inserts [carol] under the key 3. *)
Lemma carol_inserted :
  inserted autoincrement sample_model sample_auth carol_form sample_db 3.
Proof. exists 1. by split. Defined.


(** [carol] registers twice; then somebody else reuses her email. *)
Lemma reg_handle_twice_witness :
  let s := sample_state anonymous_scope in
  let r := sample_request None in
  let s1 := snd (reg_handle sample_model autoincrement r carol_form s) in
  let dave := {| reg_username := "dave"; reg_password := PlainStr "pw";
                 reg_email := "carol@example.org" |} in
  inserted autoincrement sample_model sample_auth carol_form (db s) 3
  ∧ (∃ out, fst (reg_handle sample_model autoincrement r carol_form s1)
            = Return out ∧ status out = -1)
  ∧ (reg_username dave ≠ reg_username carol_form
     ∧ ∃ out, fst (reg_handle sample_model autoincrement r dave s1) = Return out
              ∧ status out = -2).
Proof.
  intros s r s1 dave.
  pose proof (reg_handle_twice sample_model autoincrement r carol_form s
                sample_auth 3 eq_refl eq_refl eq_refl carol_inserted) as Htwice.
  split; [exact carol_inserted |]. split.
  - by apply (Htwice carol_form).
  - split; [discriminate |]. by apply (Htwice dave).
Defined.

Lemma reg_handle_keeps_unique_witness :
  let s := sample_state anonymous_scope in
  let r := sample_request None in
  (NoDup (username <$> users (db s)) ∧ NoDup (email <$> users (db s)))
  ∧ NoDup (username <$> users (db (snd (reg_handle sample_model autoincrement r
                                            carol_form s))))
  ∧ NoDup (email <$> users (db (snd (reg_handle sample_model autoincrement r
                                         carol_form s)))).
Proof.
  intros s r.
  assert (Hnames : NoDup (username <$> users (db s))).
  { apply (bool_decide_unpack _). vm_compute. exact I. }
  assert (Hemails : NoDup (email <$> users (db s))).
  { apply (bool_decide_unpack _). vm_compute. exact I. }
  split; [by split |].
  exact (reg_handle_keeps_unique sample_model autoincrement r carol_form s
           Hnames Hemails).
Defined.

(** [carol] registers and logs in: where new users are active she gets
    in, where they are not she is refused. *)
Lemma register_then_login_witness :
  let s := sample_state anonymous_scope in
  let r := sample_request None in
  (verify sample_context "s3cret" (hash sample_context "s3cret") = true
   ∧ inserted autoincrement sample_model sample_auth carol_form (db s) 3)
  ∧ (∃ out,
       fst (login_handle r (login_of carol_form)
              (snd (reg_handle sample_model autoincrement r carol_form s)))
         = Return out
       ∧ status out = 0 ∧ code out = Some 0
       ∧ identity <$> data out
         = Some (registered_row sample_model sample_auth carol_form 3))
  ∧ (∃ out,
       fst (login_handle r (login_of carol_form)
              (snd (reg_handle moderated_model autoincrement r carol_form s)))
         = Return out
       ∧ status out = -2).
Proof.
  intros s r. split; [split; [reflexivity | exact carol_inserted] |]. split.
  - destruct (register_then_login sample_model autoincrement r carol_form s
                sample_auth 3 eq_refl eq_refl eq_refl eq_refl carol_inserted
                eq_refl) as (out & Hout & Hactive & _).
    exists out. split; [exact Hout |]. by apply Hactive.
  - assert (Hins : inserted autoincrement moderated_model sample_auth carol_form
                     (db s) 3) by (exists 1; by split).
    destruct (register_then_login moderated_model autoincrement r carol_form s
                sample_auth 3 eq_refl eq_refl eq_refl eq_refl Hins eq_refl)
      as (out & Hout & _ & Hinactive).
    exists out. split; [exact Hout |]. by apply Hinactive.
Defined.

Lemma oauth_token_wrong_password_witness :
  let s := sample_state anonymous_scope in
  (scope s !! "auth" = Some (SAuth sample_auth)
   ∧ default SNone (scope s !! "user") = SNone
   ∧ verify sample_context "guess" (secret_value (password alice)) = false)
  ∧ ∃ out s1,
      oauth_token (sample_request None) "alice" "guess" s = (Return (out, None), s1)
      ∧ status out = -1 ∧ data out = None
      ∧ store s1 = sample_store ∧ entropy s1 = ["t-next"]
      ∧ scope s1 !! "user" = Some SNone.
Proof.
  intros s. split; [by repeat split |].
  exact (oauth_token_wrong_password (sample_request None) "alice" "guess" s
           sample_auth alice eq_refl eq_refl eq_refl eq_refl).
Defined.

(** The disabled [bob] gets a token from the token endpoint. *)
Lemma oauth_token_ignores_is_active_witness :
  let s := sample_state anonymous_scope in
  (is_active bob = false
   ∧ verify sample_context "builder" (secret_value (password bob)) = true)
  ∧ ∃ out s1,
      oauth_token (sample_request None) "bob" "builder" s
        = (Return (out, Some ("Authorization", "bearer t-next")), s1)
      ∧ status out = 0
      ∧ data out = Some {| identity := bob; access_token := Some "t-next" |}
      ∧ store s1 = snd (DbTokenStore.write_token 0 "t-next" (user_dict bob)
                          sample_store)
      ∧ scope s1 !! "user" = Some (SUser bob).
Proof.
  intros s. split; [by split |].
  exact (oauth_token_ignores_is_active (sample_request None) "bob" "builder" s
           sample_auth bob eq_refl eq_refl eq_refl eq_refl).
Defined.

(** [alice], already resolved, submits [bob]'s name and a wrong password. *)
Lemma oauth_token_already_authenticated_witness :
  let s := sample_state alice_scope in
  (scope s !! "auth" = Some (SAuth sample_auth)
   ∧ scope s !! "user" = Some (SUser alice))
  ∧ ∃ out s1,
      oauth_token (sample_request None) "bob" "guess" s
        = (Return (out, Some ("Authorization", "bearer t-next")), s1)
      ∧ status out = 0
      ∧ data out = Some {| identity := alice; access_token := Some "t-next" |}
      ∧ trace s1 = [TokenWrite (user_dict alice)]
      ∧ scope s1 = alice_scope.
Proof.
  intros s. split; [by split |].
  exact (oauth_token_already_authenticated (sample_request None) "bob" "guess" s
           sample_auth alice eq_refl eq_refl).
Defined.

(** An anonymous request reaches a handler guarded with
    [requires('admin', response=True)]. *)
Lemma async_wrapper_runs_func_witness :
  let a := {| roles := KStr "admin"; groups := KNone; permissions := KNone;
              status_code := 403; redirect := None;
              response := Some (VBool true) |} in
  let s := sample_state ∅ in
  fst (has_requires sample_auth a (sample_request None) s) = Return false
  ∧ fst (async_wrapper sample_auth a sample_handler (sample_request None) s)
    = Return (VResponse "secret page").
Proof.
  intros a s. split; [vm_compute; reflexivity |].
  pose proof (async_wrapper_runs_func sample_auth a sample_handler
                (sample_request None) s) as [_ Hfail].
  rewrite Hfail; [reflexivity | vm_compute; reflexivity].
Defined.

(** The page guard for [alice], who is an admin, and for an anonymous
    request. *)
Lemma has_page_permission_admin_witness :
  (fst (resolved_user sample_auth (sample_request None) (sample_state alice_scope))
   = Return (SUser alice)
   ∧ fst (has_page_permission (inherited_check true) (sample_request None)
            (sample_state alice_scope))
     = Return (VBool true))
  ∧ (fst (resolved_user sample_auth (sample_request None)
            (sample_state anonymous_scope))
     = Return SNone
     ∧ fst (has_page_permission (inherited_check true) (sample_request None)
              (sample_state anonymous_scope))
       = Return (VBool false)).
Proof.
  split.
  - split; [vm_compute; reflexivity |].
    pose proof (has_page_permission_admin (inherited_check true)
                  (sample_request None) (sample_state alice_scope)
                  (sample_state alice_scope)) as [_ Hpass].
    destruct (Hpass sample_auth eq_refl eq_refl) as [Huser _].
    rewrite (Huser alice); [reflexivity | vm_compute; reflexivity].
  - split; [vm_compute; reflexivity |].
    pose proof (has_page_permission_admin (inherited_check true)
                  (sample_request None) (sample_state anonymous_scope)
                  (sample_state anonymous_scope)) as [_ Hpass].
    destruct (Hpass sample_auth eq_refl eq_refl) as [_ Hanon].
    apply Hanon. vm_compute; reflexivity.
Defined.

(** [handler(a, request)], called as [handler(1, request=req)]. *)
Lemma wrapper_request_cases_witness :
  let req := sample_request None in
  decorator (FuncDef ["a"; "request"] true) = DAsyncWrapper 1
  ∧ wrapper_request 1 [] {[ "request" := ArgRequest req ]} = GotRequest req
  ∧ wrapper_request 1 [ArgOther; ArgRequest req] ∅ = GotRequest req
  ∧ wrapper_request 1 [ArgOther] {[ "request" := ArgRequest req ]}
    = RaisesIndexError.
Proof.
  intros req. split; [reflexivity |].
  pose proof (wrapper_request_cases 1 [] {[ "request" := ArgRequest req ]} req)
    as (Hkw & _).
  pose proof (wrapper_request_cases 1 [ArgOther; ArgRequest req] ∅ req)
    as (_ & _ & Hpos & _).
  pose proof (wrapper_request_cases 1 [ArgOther]
                {[ "request" := ArgRequest req ]} req)
    as (_ & _ & _ & _ & Hshort).
  split; [by apply Hkw |]. split; [by apply Hpos |].
  apply Hshort; [discriminate | simpl; lia].
Defined.

(** An update with a new password, and one without. *)
Lemma on_update_pre_only_password_witness :
  let s := sample_state anonymous_scope in
  let with_password : gmap string string :=
    {[ "email" := "a@example.org"; "password" := "new" ]} in
  let without : gmap string string := {[ "email" := "a@example.org" ]} in
  (PyStr.truthy_opt (without !! "password") = false
   ∧ on_update_pre (sample_request None) without s = (Return without, s))
  ∧ ∃ out,
      on_update_pre (sample_request None) with_password s = (Return out, s)
      ∧ out !! "email" = Some "a@example.org"
      ∧ out !! "password" = Some "h:new".
Proof.
  intros s with_password without.
  pose proof (on_update_pre_only_password (sample_request None) without s)
    as [Hsame _].
  pose proof (on_update_pre_only_password (sample_request None) with_password s)
    as [_ Hhash].
  split; [split; [reflexivity | by apply Hsame] |].
  destruct (on_update_pre (sample_request None) with_password s)
    as [[out |] s1] eqn:Hrun; [| by vm_compute in Hrun].
  destruct (Hhash out s1 eq_refl) as (-> & _ & Hother & Hpw).
  exists out. split; [reflexivity |]. split.
  - by rewrite Hother.
  - destruct (Hpw "new") as (auth & Ha & Hout); [reflexivity | discriminate |].
    injection Ha as <-. exact Hout.
Defined.

(** ** A resolved connection *)

Section Resolved.
Context {S : Type} `{TokenStore S}.

(** X22. Once a connection has been resolved, what the request
    presents no longer matters: the resolver gives the same answer and
    leaves the same state for any other headers and cookies, and for any
    [Auth] it is called on. A token that arrives later on the same
    connection is not looked at. *)
Theorem authenticate_ignores_request_once_resolved (self other : Auth)
    (request later : Request) (s : State S) :
  let s1 := snd (authenticate self request s) in
  authenticate other later s1 = (fst (authenticate self request s), s1).
Proof.
  simpl.
  destruct (authenticate_returns self request s)
    as (a & u & s1 & Hrun & Ha & Ht & Hu & _).
  rewrite Hrun. simpl.
  by rewrite (authenticate_cached other later s1 a Ha Ht), Hu.
Qed.

End Resolved.
